(** * healthcare_pipeline.py: a shallow embedding and its properties

    The script reads [data/patients.csv] with pandas, cleans the table in
    place, writes summary tables and renders charts with matplotlib.  The
    embedding follows the script section by section.

    Conventions of the model.
    - A DataFrame is a list of named columns (a pandas frame is a mapping from
      column names to Series, and almost every line of the script works on one
      column).  A cell is missing ([NA], pandas' NaN / NaT), a Python [str], a
      number or a timestamp.
    - Numbers are exact rationals; rounding, overflow and the infinities of
      binary floating point are outside the model.
    - Text is ASCII: [str.strip] and [str.title] are modelled on the ASCII
      letters and the ASCII white space; a byte above 127 is kept as it is.
    - The library semantics are those of pandas 1.x / 2.x, where
      [astype(str)] renders a missing cell as a string.
    - A library call that raises is modelled by [Raise]; the only exception
      the cleaning and metric sections can raise on a frame is the [KeyError]
      of a column lookup. *)

From Stdlib Require Import String Ascii List ZArith QArith Qreduction Bool Lia Lqa
  Arith PeanoNat Sorted Permutation.
Import ListNotations.

Local Close Scope Q_scope.
Local Open Scope string_scope.
Local Open Scope list_scope.

(** ** Characters and strings *)

Module Text.

Definition code (c : ascii) : nat := nat_of_ascii c.

Definition between (lo hi : nat) (c : ascii) : bool :=
  Nat.leb lo (code c) && Nat.leb (code c) hi.

Definition is_digit (c : ascii) : bool := between 48 57 c.
Definition is_upper (c : ascii) : bool := between 65 90 c.
Definition is_lower (c : ascii) : bool := between 97 122 c.
Definition is_cased (c : ascii) : bool := is_upper c || is_lower c.

(** [str.isspace] on ASCII: TAB..CR, FS..US and the blank. *)
Definition is_space (c : ascii) : bool :=
  between 9 13 c || between 28 32 c.

Definition upper (c : ascii) : ascii :=
  if is_lower c then ascii_of_nat (code c - 32) else c.
Definition lower (c : ascii) : ascii :=
  if is_upper c then ascii_of_nat (code c + 32) else c.

Fixpoint lstrip (s : string) : string :=
  match s with
  | String c s' => if is_space c then lstrip s' else s
  | EmptyString => EmptyString
  end.

Fixpoint rstrip (s : string) : string :=
  match s with
  | String c s' =>
      match rstrip s' with
      | EmptyString => if is_space c then EmptyString else String c EmptyString
      | r => String c r
      end
  | EmptyString => EmptyString
  end.

(** [str.strip()] *)
Definition strip (s : string) : string := rstrip (lstrip s).

(** [str.title()]: a cased character that follows a cased character is
    lowered, any other one is raised. *)
Fixpoint title_from (previous_is_cased : bool) (s : string) : string :=
  match s with
  | String c s' =>
      String (if previous_is_cased then lower c else upper c)
             (title_from (is_cased c) s')
  | EmptyString => EmptyString
  end.

Definition title (s : string) : string := title_from false s.

(** [re.sub(r"[^...]", "", s)] for a character class given as a predicate. *)
Fixpoint keep (p : ascii -> bool) (s : string) : string :=
  match s with
  | String c s' => if p c then String c (keep p s') else keep p s'
  | EmptyString => EmptyString
  end.

Fixpoint all_chars (p : ascii -> bool) (s : string) : bool :=
  match s with
  | String c s' => p c && all_chars p s'
  | EmptyString => true
  end.

(** [sub s t]: [s] is obtained from [t] by deleting characters. *)
Inductive sub : string -> string -> Prop :=
| sub_nil : sub EmptyString EmptyString
| sub_take c s t : sub s t -> sub (String c s) (String c t)
| sub_skip c s t : sub s t -> sub s (String c t).

(** Decimal rendering of a natural number, left-padded with zeros. *)
Definition digit_char (d : nat) : ascii := ascii_of_nat (48 + d mod 10).

Fixpoint digits_rev (fuel n : nat) : list ascii :=
  match fuel with
  | O => []
  | S fuel' =>
      digit_char n :: (if Nat.ltb n 10 then [] else digits_rev fuel' (n / 10))
  end.

Definition of_nat (n : nat) : string :=
  string_of_list_ascii (rev (digits_rev (S n) n)).

Fixpoint zeros (k : nat) : string :=
  match k with O => EmptyString | S k' => String "0" (zeros k') end.

Definition pad (width : nat) (n : nat) : string :=
  let s := of_nat n in zeros (width - String.length s) ++ s.

End Text.

Example strip_ex : Text.strip "  a b  " = "a b".
Proof. reflexivity. Qed.

Example title_ex : Text.title "mALE o'neil" = "Male O'Neil".
Proof. reflexivity. Qed.

Example pad_ex : Text.pad 4 2023 = "2023" /\ Text.pad 2 7 = "07".
Proof. split; reflexivity. Qed.

(** ** Cells *)

(** The calendar part of a pandas [Timestamp]. *)
Record date := mkDate { year : Z; month : nat; day : nat }.

Inductive value :=
| NA                 (* NaN, None, NaT *)
| Str (s : string)   (* str *)
| Num (q : Q)        (* int or float *)
| Date (d : date).   (* Timestamp *)

Definition series := list value.

Definition date_eqb (a b : date) : bool :=
  Z.eqb (year a) (year b) && Nat.eqb (month a) (month b)
  && Nat.eqb (day a) (day b).

(** Equality of cells as [duplicated] sees it: numbers are compared by value
    and two missing cells are equal. *)
Definition value_eqb (a b : value) : bool :=
  match a, b with
  | NA, NA => true
  | Str s, Str t => String.eqb s t
  | Num p, Num q => Qeq_bool p q
  | Date d, Date e => date_eqb d e
  | _, _ => false
  end.

Definition isna (v : value) : bool :=
  match v with NA => true | _ => false end.

Definition notna (v : value) : bool := negb (isna v).

(** ** Numbers: [str(float)] and [pd.to_numeric] *)

Module Numeric.

Import Text.

Fixpoint frac_digits (fuel : nat) (num den : Z) : string :=
  match fuel with
  | O => EmptyString
  | S fuel' =>
      if Z.eqb num 0 then EmptyString
      else String (digit_char (Z.to_nat (num * 10 / den)))
                  (frac_digits fuel' ((num * 10) mod den) den)
  end.

(** [str] of a number in positional notation with at most 17 fractional
    digits (what Python prints for a float of ordinary magnitude). *)
Definition repr (q : Q) : string :=
  let n := Z.abs (Qnum q) in
  let d := Zpos (Qden q) in
  let f := frac_digits 17 (n mod d) d in
  (if Z.ltb (Qnum q) 0 then "-" else "")
  ++ of_nat (Z.to_nat (n / d)) ++ "."
  ++ match f with EmptyString => "0" | _ => f end.

(** The C [isspace] of the pandas tokenizer. *)
Definition is_cspace (c : ascii) : bool :=
  between 9 13 c || Nat.eqb (code c) 32.

Fixpoint skip_space (s : string) : string :=
  match s with
  | String c s' => if is_cspace c then skip_space s' else s
  | EmptyString => EmptyString
  end.

Definition take_sign (s : string) : bool * string :=
  match s with
  | String "-" r => (true, r)
  | String "+" r => (false, r)
  | _ => (false, s)
  end.

(** The leading run of decimal digits, and what follows it. *)
Fixpoint span_digits (s : string) : list Z * string :=
  match s with
  | String c s' =>
      if is_digit c then
        let (ds, r) := span_digits s' in (Z.of_nat (code c - 48) :: ds, r)
      else ([], s)
  | EmptyString => ([], EmptyString)
  end.

Definition digits_value (ds : list Z) : Z :=
  fold_left (fun acc d => (acc * 10 + d)%Z) ds 0%Z.

(** An exponent part [e] / [E], sign, digits; it is not consumed when no
    digit follows. *)
Definition take_exponent (s : string) : Z * string :=
  match s with
  | String c r =>
      if Ascii.eqb c "e" || Ascii.eqb c "E" then
        let (neg, r1) := take_sign r in
        let (ds, r2) := span_digits r1 in
        match ds with
        | [] => (0%Z, s)
        | _ => ((if neg then - digits_value ds else digits_value ds)%Z, r2)
        end
      else (0%Z, s)
  | EmptyString => (0%Z, s)
  end.

Definition scale10 (m e : Z) : Q :=
  if Z.leb 0 e then Qmake (m * 10 ^ e) 1
  else Qmake m (Z.to_pos (10 ^ (- e))).

(** The float grammar of [to_numeric] on a string: blanks, sign, digits with
    an optional point, optional exponent, blanks.  [None] is a parse error.
    The spellings of infinity are not modelled. *)
Definition parse_float (s : string) : option Q :=
  let (neg, s1) := take_sign (skip_space s) in
  let (ip, s2) := span_digits s1 in
  let (fp, s3) :=
    match s2 with String "." r => span_digits r | _ => ([], s2) end in
  match ip ++ fp with
  | [] => None
  | ds =>
      let (e, s4) := take_exponent s3 in
      match skip_space s4 with
      | EmptyString =>
          let m := digits_value ds in
          Some (Qred (scale10 (if neg then - m else m)%Z
                              (e - Z.of_nat (List.length fp))))
      | _ => None
      end
  end.

End Numeric.

(** [Series.astype(str)]: a missing cell becomes the string [nan]. *)
Definition astype_str (v : value) : string :=
  match v with
  | NA => "nan"
  | Str s => s
  | Num q => Numeric.repr q
  | Date d =>
      Text.pad 4 (Z.to_nat (year d)) ++ "-" ++ Text.pad 2 (month d)
      ++ "-" ++ Text.pad 2 (day d)
  end.

(** [pd.to_numeric(..., errors="coerce")] on one cell. *)
Definition to_numeric (v : value) : value :=
  match v with
  | Num q => Num q
  | Str s =>
      match Numeric.parse_float s with Some q => Num q | None => NA end
  | _ => NA
  end.

Example parse_float_ex :
  map Numeric.parse_float ["1234.56"; "-.5"; "5."; " +12e-1 "; "1e3"]
  = [Some (30864 # 25); Some (-1 # 2); Some (5 # 1); Some (6 # 5);
     Some (1000 # 1)]%Q.
Proof. reflexivity. Qed.

Example parse_float_errors :
  map Numeric.parse_float [""; "."; "-"; "1.2.3"; "5-3"; "--5"; "5e"; "abc"]
  = [None; None; None; None; None; None; None; None].
Proof. reflexivity. Qed.

Example repr_ex :
  map Numeric.repr [10 # 1; 30864 # 25; -1 # 2]%Q
  = ["10.0"; "1234.56"; "-0.5"].
Proof. reflexivity. Qed.

(** ** Exceptions *)

Inductive exn := KeyError (label : string).

Inductive result (A : Type) :=
| Ok (a : A)
| Raise (e : exn).

Arguments Ok {A} a.
Arguments Raise {A} e.

Definition bind {A B : Type} (m : result A) (k : A -> result B) : result B :=
  match m with
  | Ok a => k a
  | Raise e => Raise e
  end.

Notation "x <- m ;; k" := (bind m (fun x => k))
  (at level 61, m at next level, right associativity).

Lemma Ok_inj {A : Type} (a b : A) : Ok a = Ok b -> a = b.
Proof. intros H. injection H. auto. Qed.

(** ** Frames *)

Definition frame := list (string * series).

Definition columns (df : frame) : list string := map fst df.

(** [len(df)] *)
Definition nrows (df : frame) : nat :=
  match df with
  | [] => 0
  | (_, s) :: _ => List.length s
  end.

Fixpoint lookup (c : string) (df : frame) : option series :=
  match df with
  | [] => None
  | (c', s) :: df' => if String.eqb c c' then Some s else lookup c df'
  end.

(** [c in df.columns] *)
Definition has_column (c : string) (df : frame) : bool :=
  match lookup c df with Some _ => true | None => false end.

(** [df[c]] *)
Definition getitem (c : string) (df : frame) : result series :=
  match lookup c df with
  | Some s => Ok s
  | None => Raise (KeyError c)
  end.

(** [df[c] = s]: the column is replaced where it stands, a new one is
    appended. *)
Fixpoint setitem (c : string) (s : series) (df : frame) : frame :=
  match df with
  | [] => [(c, s)]
  | (c', s') :: df' =>
      if String.eqb c c' then (c, s) :: df' else (c', s') :: setitem c s df'
  end.

(** [if c in df.columns: df[c] = f(df[c])] *)
Definition update (c : string) (f : series -> series) (df : frame) : frame :=
  match lookup c df with
  | Some s => setitem c (f s) df
  | None => df
  end.

(** Every column has [n] cells. *)
Definition table (n : nat) (df : frame) : Prop :=
  Forall (fun cs => List.length (snd cs) = n) df.

(** The frame is rectangular, as every DataFrame is. *)
Definition rect (df : frame) : Prop := table (nrows df) df.

(** Boolean indexing [s[mask]]. *)
Fixpoint select {A : Type} (mask : list bool) (l : list A) : list A :=
  match mask, l with
  | b :: mask', x :: l' =>
      if b then x :: select mask' l' else select mask' l'
  | _, _ => []
  end.

(** *** Rows *)

Definition row := list value.

Fixpoint zip_cons (s : series) (rs : list row) : list row :=
  match s, rs with
  | v :: s', r :: rs' => (v :: r) :: zip_cons s' rs'
  | _, _ => []
  end.

Fixpoint rows_of (n : nat) (df : frame) : list row :=
  match df with
  | [] => repeat [] n
  | (_, s) :: df' => zip_cons s (rows_of n df')
  end.

Definition df_rows (df : frame) : list row := rows_of (nrows df) df.

Fixpoint row_eqb (r r' : row) : bool :=
  match r, r' with
  | [], [] => true
  | v :: t, v' :: t' => value_eqb v v' && row_eqb t t'
  | _, _ => false
  end.

(** [DataFrame.duplicated()], [keep="first"]: a row is marked when an equal
    row stands above it. *)
Fixpoint duplicated_from (seen rs : list row) : list bool :=
  match rs with
  | [] => []
  | r :: rs' => existsb (row_eqb r) seen :: duplicated_from (r :: seen) rs'
  end.

Definition duplicated (df : frame) : list bool :=
  duplicated_from [] (df_rows df).

(** [df[mask]] *)
Definition filter_rows (mask : list bool) (df : frame) : frame :=
  map (fun cs => (fst cs, select mask (snd cs))) df.

(** [df.drop_duplicates()] *)
Definition drop_duplicates (df : frame) : frame :=
  filter_rows (map negb (duplicated df)) df.

(** ** Dates: [pd.to_datetime(..., errors="coerce")]

    The parser of pandas works on a whole column (it settles on one format
    for it) and accepts many spellings of a date.  The model keeps it as an
    interface: what the script relies on is that the result is a column of
    the same length whose cells are timestamps or missing, that a missing
    cell stays missing, and that two equal cells of one column are read
    alike. *)

Class DatetimeParser := {
  to_datetime : series -> series;
  to_datetime_length :
    forall s, List.length (to_datetime s) = List.length s;
  to_datetime_na :
    forall s i, nth i s NA = NA -> nth i (to_datetime s) NA = NA;
  to_datetime_same :
    forall s i j, nth i s NA = nth j s NA ->
                  nth i (to_datetime s) NA = nth j (to_datetime s) NA
}.

(** An instance: ISO 8601 calendar dates, [YYYY-MM-DD]. *)
Module Iso.

Definition digit (c : ascii) : option nat :=
  if Text.is_digit c then Some (Text.code c - 48) else None.

Definition number (cs : list ascii) : option nat :=
  fold_left (fun acc c =>
               match acc, digit c with
               | Some n, Some d => Some (10 * n + d)
               | _, _ => None
               end) cs (Some 0).

Definition leap (y : nat) : bool :=
  (Nat.eqb (y mod 4) 0 && negb (Nat.eqb (y mod 100) 0))
  || Nat.eqb (y mod 400) 0.

Definition days_in_month (y m : nat) : nat :=
  match m with
  | 2 => if leap y then 29 else 28
  | 4 | 6 | 9 | 11 => 30
  | _ => 31
  end.

Definition parse (s : string) : option date :=
  match list_ascii_of_string s with
  | [y1; y2; y3; y4; "-"%char; m1; m2; "-"%char; d1; d2] =>
      match number [y1; y2; y3; y4], number [m1; m2], number [d1; d2] with
      | Some y, Some m, Some d =>
          if Nat.leb 1 m && Nat.leb m 12 && Nat.leb 1 d
             && Nat.leb d (days_in_month y m)
          then Some (mkDate (Z.of_nat y) m d) else None
      | _, _, _ => None
      end
  | _ => None
  end.

Definition cell (v : value) : value :=
  match v with
  | Str s => match parse s with Some d => Date d | None => NA end
  | Date d => Date d
  | _ => NA
  end.

End Iso.

Example iso_parse_ex :
  map Iso.parse ["2023-01-05"; "2023-02-30"; "05/01/2023"]
  = [Some (mkDate 2023 1 5); None; None].
Proof. reflexivity. Qed.

Lemma iso_length (s : series) :
  List.length (map Iso.cell s) = List.length s.
Proof. apply length_map. Qed.

Lemma iso_nth (s : series) (i : nat) :
  nth i (map Iso.cell s) NA = Iso.cell (nth i s NA).
Proof. exact (map_nth Iso.cell s NA i). Qed.

Lemma iso_na (s : series) (i : nat) :
  nth i s NA = NA -> nth i (map Iso.cell s) NA = NA.
Proof. intros E. rewrite iso_nth, E. reflexivity. Qed.

Lemma iso_same (s : series) (i j : nat) :
  nth i s NA = nth j s NA ->
  nth i (map Iso.cell s) NA = nth j (map Iso.cell s) NA.
Proof. intros E. rewrite !iso_nth, E. reflexivity. Qed.

#[export] Instance iso_dates : DatetimeParser :=
  {| to_datetime := map Iso.cell;
     to_datetime_length := iso_length;
     to_datetime_na := iso_na;
     to_datetime_same := iso_same |}.

(** ** Section 2 of the script: cleaning and enrichment *)

(** *** The [.str] accessor and [Series.replace] *)

Definition as_str (v : value) : value := Str (astype_str v).

Definition str_strip (v : value) : value :=
  match v with Str s => Str (Text.strip s) | _ => NA end.

Definition str_title (v : value) : value :=
  match v with Str s => Str (Text.title s) | _ => NA end.

(** The characters the pattern [[^0-9.\-]] spares. *)
Definition billing_char (c : ascii) : bool :=
  Text.is_digit c || Ascii.eqb c "." || Ascii.eqb c "-".

(** [.str.replace(r"[^0-9.\-]", "", regex=True)] *)
Definition str_replace_billing (v : value) : value :=
  match v with Str s => Str (Text.keep billing_char s) | _ => NA end.

(** [.replace({"M": "Male", "F": "Female"})] *)
Definition replace_gender (v : value) : value :=
  match v with
  | Str s =>
      if String.eqb s "M" then Str "Male"
      else if String.eqb s "F" then Str "Female" else v
  | _ => v
  end.

(** The whole of the Billing Amount conversion on one cell. *)
Definition parse_billing (v : value) : value :=
  to_numeric (str_replace_billing (as_str v)).

(** The whole of the Gender normalisation on one cell. *)
Definition gender_cell (v : value) : value :=
  replace_gender (str_title (str_strip (as_str v))).

Definition text_cell (v : value) : value := str_strip (as_str v).

(** *** Median and [fillna] *)

Fixpoint insert_q (x : Q) (l : list Q) : list Q :=
  match l with
  | [] => [x]
  | y :: l' => if Qle_bool x y then x :: l else y :: insert_q x l'
  end.

Definition sort_q (l : list Q) : list Q := fold_right insert_q [] l.

(** The numbers of a column; missing cells are skipped. *)
Definition numbers (s : series) : list Q :=
  flat_map (fun v => match v with Num q => [q] | _ => [] end) s.

(** [Series.median()]: the middle of the sorted numbers, the mean of the two
    middle ones for an even count, NaN for none. *)
Definition median (s : series) : value :=
  let xs := sort_q (numbers s) in
  let n := List.length xs in
  match n with
  | O => NA
  | _ =>
      if Nat.odd n then Num (nth (n / 2) xs 0%Q)
      else Num (Qred ((nth (n / 2 - 1) xs 0 + nth (n / 2) xs 0) / 2)%Q)
  end.

Definition fillna (x : value) (s : series) : series :=
  map (fun v => if isna v then x else v) s.

(** *** [pd.cut] *)

Definition bins : list Q := [0; 18; 40; 60; 200]%Q.

Definition labels : list string :=
  ["Child (0-18)"; "Adult (19-40)"; "Middle (41-60)"; "Senior (61+)"].

Definition Qlt_bool (a b : Q) : bool := negb (Qle_bool b a).

(** [bins.searchsorted(x, side="left")] on increasing edges: the number of
    edges below [x]. *)
Definition searchsorted_left (edges : list Q) (x : Q) : nat :=
  List.length (filter (fun b => Qlt_bool b x) edges).

(** [pd.cut(x, bins, labels, right=True, include_lowest=True)] on one cell:
    the index found by the search is set to 1 for a value on the lowest
    edge, and the indices 0 and [len(bins)] give no bucket. *)
Definition cut (edges : list Q) (names : list string) (v : value) : value :=
  match v with
  | Num x =>
      let i := if Qeq_bool x (hd 0%Q edges) then 1
               else searchsorted_left edges x in
      if Nat.eqb i 0 || Nat.eqb i (List.length edges) then NA
      else nth (i - 1) (map Str names) NA
  | _ => NA
  end.

Definition age_group (v : value) : value := cut bins labels v.

(** *** The [.dt] accessor *)

Definition month_abbr : list string :=
  ["Jan"; "Feb"; "Mar"; "Apr"; "May"; "Jun";
   "Jul"; "Aug"; "Sep"; "Oct"; "Nov"; "Dec"].

(** [.dt.year] *)
Definition dt_year (v : value) : value :=
  match v with Date d => Num (inject_Z (year d)) | _ => NA end.

(** [.dt.to_period("M").astype(str)]: the missing period is rendered as the
    string [NaT]. *)
Definition dt_month (v : value) : value :=
  match v with
  | Date d =>
      Str (Text.pad 4 (Z.to_nat (year d)) ++ "-" ++ Text.pad 2 (month d))
  | _ => Str "NaT"
  end.

(** [.dt.strftime("%b")] *)
Definition dt_month_name (v : value) : value :=
  match v with
  | Date d => Str (nth (month d - 1) month_abbr "")
  | _ => NA
  end.

Section Cleaning.

Context {parser : DatetimeParser}.

(** Line 25: [df.columns = [c.strip() for c in df.columns]] *)
Definition strip_columns (df : frame) : frame :=
  map (fun cs => (Text.strip (fst cs), snd cs)) df.

(** Lines 28-29 *)
Definition convert_dates (df : frame) : frame :=
  update "Date of Admission" to_datetime df.

(** Lines 32-38 *)
Definition convert_billing (df : frame) : frame :=
  update "Billing Amount" (map to_numeric)
    (update "Billing Amount"
            (map (fun v => str_replace_billing (as_str v))) df).

(** Lines 41-42 *)
Definition convert_age (df : frame) : frame :=
  update "Age" (map to_numeric) df.

(** Lines 45-47 *)
Definition normalize_gender (df : frame) : frame :=
  update "Gender" (map replace_gender)
    (update "Gender" (map (fun v => str_title (str_strip (as_str v)))) df).

Definition text_cols : list string :=
  ["Name"; "Blood Type"; "Medical Condition"; "Doctor"; "Hospital";
   "Insurance Provider"].

(** Lines 50-52 *)
Definition clean_text_cols (df : frame) : frame :=
  fold_left (fun df col => update col (map text_cell) df) text_cols df.

(** Lines 25-52: the conversions, column by column. *)
Definition convert (df : frame) : frame :=
  clean_text_cols
    (normalize_gender
       (convert_age (convert_billing (convert_dates (strip_columns df))))).

(** Lines 57-64: fill missing values. *)
Definition fill_billing (s : series) : series :=
  if existsb isna s then fillna (median s) s else s.

Definition fill_missing_values (df : frame) : frame :=
  let df := update "Billing Amount" fill_billing df in
  let df := update "Gender" (fillna (Str "Unknown")) df in
  let df := update "Insurance Provider" (fillna (Str "Unknown")) df in
  update "Blood Type" (fillna (Str "Unknown")) df.

(** Lines 67-74: derived columns.  The Age Group is guarded by the presence
    of Age; the three columns taken from the admission date are not guarded. *)
Definition derived_cols (df : frame) : result frame :=
  let df := match lookup "Age" df with
            | Some a => setitem "Age Group" (map age_group a) df
            | None => df
            end in
  d <- getitem "Date of Admission" df ;;
  let df := setitem "Admission Year" (map dt_year d) df in
  d <- getitem "Date of Admission" df ;;
  let df := setitem "Admission Month" (map dt_month d) df in
  d <- getitem "Date of Admission" df ;;
  Ok (setitem "Month Name" (map dt_month_name d) df).

(** Lines 25-74. *)
Definition clean (df : frame) : result frame :=
  derived_cols (fill_missing_values (drop_duplicates (convert df))).

End Cleaning.

Definition sample : frame :=
  [("Name", [Str " Ann "; Str "Bob"; Str "Bob"; NA]);
   ("Age", [Str "17"; Str "41"; Str "41"; Str "x"]);
   ("Gender ", [Str " m"; Str "FEMALE"; Str "FEMALE"; NA]);
   ("Date of Admission",
    [Str "2023-01-05"; Str "2023-02-01"; Str "2023-02-01"; NA]);
   ("Billing Amount", [Str "$1,234.56"; Str "10"; Str "10"; Str "abc"])].

Example clean_sample :
  clean sample
  = Ok [("Name", [Str "Ann"; Str "Bob"; Str "nan"]);
        ("Age", [Num 17; Num 41; NA]);
        ("Gender", [Str "Male"; Str "Female"; Str "Nan"]);
        ("Date of Admission",
         [Date (mkDate 2023 1 5); Date (mkDate 2023 2 1); NA]);
        ("Billing Amount",
         [Num (30864 # 25); Num 10; Num (15557 # 25)]);
        ("Age Group", [Str "Child (0-18)"; Str "Middle (41-60)"; NA]);
        ("Admission Year", [Num 2023; Num 2023; NA]);
        ("Admission Month", [Str "2023-01"; Str "2023-02"; Str "NaT"]);
        ("Month Name", [Str "Jan"; Str "Feb"; NA])]%Q.
Proof. vm_compute. reflexivity. Qed.

(** ** Section 3 of the script: metrics *)

(** The single row of [kpis.csv]; the mean of no number is NaN. *)
Record kpi := mkKpi {
  total_patients : nat;
  total_billing : Q;
  average_billing : option Q
}.

Definition Qsum (l : list Q) : Q := fold_right Qplus 0%Q l.

(** Lines 84-88 *)
Definition compute_kpi (df : frame) : result kpi :=
  b <- getitem "Billing Amount" df ;;
  let xs := numbers b in
  Ok (mkKpi (nrows df) (Qsum xs)
            (match xs with
             | [] => None
             | _ => Some (Qsum xs / inject_Z (Z.of_nat (List.length xs)))%Q
             end)).

(** The keys of [groupby]: text cells; a missing key is dropped. *)
Definition group_keys (s : series) : list string :=
  flat_map (fun v => match v with Str k => [k] | _ => [] end) s.

(** One more row for the group [k], in a table kept in increasing key
    order. *)
Fixpoint bump (k : string) (g : list (string * nat)) : list (string * nat) :=
  match g with
  | [] => [(k, 1)]
  | (k', n) :: g' =>
      match String.compare k k' with
      | Eq => (k', S n) :: g'
      | Lt => (k, 1) :: g
      | Gt => (k', n) :: bump k g'
      end
  end.

(** [groupby(key).size()]: the sizes of the groups, keys increasing. *)
Definition group_sizes (keys : list string) : list (string * nat) :=
  fold_left (fun g k => bump k g) keys [].

Fixpoint insert_by_key (x : string * nat) (l : list (string * nat))
  : list (string * nat) :=
  match l with
  | [] => [x]
  | y :: l' =>
      if String.leb (fst x) (fst y) then x :: l else y :: insert_by_key x l'
  end.

(** [sort_values(key)], ascending. *)
Definition sort_values (l : list (string * nat)) : list (string * nat) :=
  fold_right insert_by_key [] l.

(** Lines 96-102: the rows whose admission date is missing are dropped, the
    rest is grouped by Admission Month and counted. *)
Definition monthly (df : frame) : result (list (string * nat)) :=
  d <- getitem "Date of Admission" df ;;
  m <- getitem "Admission Month" (filter_rows (map notna d) df) ;;
  Ok (sort_values (group_sizes (group_keys m))).

(** The metric tables written, by file name.  Only the KPI row and the
    monthly table are modelled with their contents. *)
Record metrics := mkMetrics {
  kpis : kpi;
  admissions_by_month : list (string * nat);
  metric_files : list string
}.

(** Lines 84-126 *)
Definition compute_metrics (df : frame) : result metrics :=
  k <- compute_kpi df ;;
  let files := ["kpis.csv"] in
  let files := if has_column "Medical Condition" df
               then files ++ ["medical_condition_counts.csv"] else files in
  m <- monthly df ;;
  let files := files ++ ["admissions_by_month.csv"] in
  files <- (if has_column "Medical Condition" df
            then _ <- getitem "Billing Amount" df ;;
                 Ok (files ++ ["avg_billing_by_condition.csv"])
            else Ok files) ;;
  files <- (if has_column "Blood Type" df
            then _ <- getitem "Billing Amount" df ;;
                 Ok (files ++ ["blood_type_counts.csv";
                               "avg_billing_by_bloodtype.csv"])
            else Ok files) ;;
  Ok (mkMetrics k m files).

(** ** Section 4 of the script: charts *)

Module Pyplot.

Inductive call :=
| Figure (width height : nat)          (* plt.figure(figsize=...) *)
| Bar                                  (* plt.bar(x, y) *)
| PlotBar                              (* series.plot(kind="bar") *)
| Pie                                  (* plt.pie(...) *)
| Plot                                 (* plt.plot(..., marker="o") *)
| Title (t : string)                   (* plt.title(t) *)
| Xticks                               (* plt.xticks(rotation=45, ...) *)
| TightLayout                          (* plt.tight_layout() *)
| Savefig (path : string) (dpi : nat)  (* plt.savefig(path, dpi=dpi) *)
| Close.                               (* plt.close() *)

(** An open figure and what has been drawn on it, latest first. *)
Definition figure := list call.

(** The figures pyplot holds, the current one first, and the files
    written. *)
Record state := mkState {
  figures : list figure;
  files : list (string * nat * figure)
}.

Inductive outcome := Done | Raised (c : call).

Definition draw (c : call) (st : state) : state :=
  match figures st with
  | f :: fs => mkState ((c :: f) :: fs) (files st)
  | [] => mkState [[c]] (files st)       (* gcf() opens a figure *)
  end.

(** One call that does not raise. *)
Definition exec (c : call) (st : state) : state :=
  match c with
  | Figure _ _ => mkState ([] :: figures st) (files st)
  | Savefig p dpi =>
      mkState (figures st) ((p, dpi, hd [] (figures st)) :: files st)
  | Close => mkState (tl (figures st)) (files st)
  | _ => draw c st
  end.

Section Run.

(** Which calls raise is decided by the environment (an unwritable path, a
    backend error). *)
Variable raises : call -> bool.

(** A function body: the calls in order; an exception ends it and leaves
    the state as it is. *)
Fixpoint run (body : list call) (st : state) : state * outcome :=
  match body with
  | [] => (st, Done)
  | c :: body' => if raises c then (st, Raised c) else run body' (exec c st)
  end.

End Run.

(** Lines 131-142 *)
Definition save_bar (xy : bool) (title path : string) (rotate : bool)
  : list call :=
  [Figure 10 5; if xy then Bar else PlotBar; Title title]
  ++ (if rotate then [Xticks] else [])
  ++ [TightLayout; Savefig path 150; Close].

(** Lines 144-150 *)
Definition save_pie (title path : string) : list call :=
  [Figure 6 6; Pie; Title title; TightLayout; Savefig path 150; Close].

(** Lines 152-159 *)
Definition save_line (title path : string) : list call :=
  [Figure 10 5; Plot; Title title; Xticks; TightLayout; Savefig path 150;
   Close].

End Pyplot.

(** Lines 162-219: the charts the script renders for a cleaned frame, in
    order, each under its guard. *)
Definition charts (df : frame) (months : list (string * nat))
  : list (list Pyplot.call) :=
  (match months with
   | [] => []
   | _ => [Pyplot.save_line "Admissions Over Time (Monthly)"
                            "outputs/figures/admissions_over_time.png"]
   end)
  ++ (if has_column "Medical Condition" df
      then [Pyplot.save_bar false "Top 10 Medical Conditions"
              "outputs/figures/top10_medical_conditions.png" true]
      else [])
  ++ (if has_column "Gender" df
      then [Pyplot.save_pie "Gender Distribution"
              "outputs/figures/gender_distribution.png"]
      else [])
  ++ (if has_column "Age Group" df
      then [Pyplot.save_pie "Age Group Distribution"
              "outputs/figures/age_group_distribution.png"]
      else [])
  ++ (if has_column "Medical Condition" df
      then [Pyplot.save_bar false "Average Billing by Condition (Top 10)"
              "outputs/figures/avg_billing_by_condition.png" true]
      else [])
  ++ (if has_column "Insurance Provider" df
      then [Pyplot.save_pie "Insurance Provider Share (Top 10)"
              "outputs/figures/insurance_provider_share.png"]
      else [])
  ++ (if has_column "Blood Type" df
      then [Pyplot.save_pie "Blood Type Distribution"
              "outputs/figures/blood_type_distribution.png";
            Pyplot.save_bar false "Average Billing by Blood Type"
              "outputs/figures/avg_billing_by_bloodtype.png" true]
      else []).

Section Script.

Context {parser : DatetimeParser}.
Variable raises : Pyplot.call -> bool.

(** The charts run one after the other; an exception ends the script. *)
Fixpoint render_all (cs : list (list Pyplot.call)) (st : Pyplot.state)
  : Pyplot.state * Pyplot.outcome :=
  match cs with
  | [] => (st, Pyplot.Done)
  | body :: cs' =>
      match Pyplot.run raises body st with
      | (st', Pyplot.Done) => render_all cs' st'
      | stop => stop
      end
  end.

(** The figure states in which the charts of a run are started. *)
Fixpoint starts (cs : list (list Pyplot.call)) (st : Pyplot.state)
  : list Pyplot.state :=
  match cs with
  | [] => []
  | body :: cs' =>
      st :: match Pyplot.run raises body st with
            | (st', Pyplot.Done) => starts cs' st'
            | _ => []
            end
  end.

(** Sections 2 and 3: the cleaned frame and the metric tables, or the
    exception that ends the script. *)
Definition pipeline (df : frame) : result (frame * metrics) :=
  c <- clean df ;;
  m <- compute_metrics c ;;
  Ok (c, m).

End Script.

Example pipeline_sample_months :
  match pipeline sample with
  | Ok (_, m) =>
      admissions_by_month m = [("2023-01", 1); ("2023-02", 1)]
      /\ total_patients (kpis m) = 3
  | Raise _ => False
  end.
Proof. vm_compute. split; reflexivity. Qed.

(** * Properties *)

(** ** Columns of a frame *)

(** Comparisons of column labels that are literals are decided by
    evaluation. *)
Ltac eval_labels :=
  repeat match goal with
         | |- context [String.eqb ?a ?b] =>
             let r := eval vm_compute in (String.eqb a b) in
             match r with
             | true => change (String.eqb a b) with true
             | false => change (String.eqb a b) with false
             end
         end;
  cbv iota.

Lemma lookup_setitem (c c' : string) (s : series) (df : frame) :
  lookup c (setitem c' s df)
  = if String.eqb c c' then Some s else lookup c df.
Proof.
  induction df as [|[k t] df IH]; simpl.
  - destruct (String.eqb c c'); reflexivity.
  - destruct (String.eqb c' k) eqn:E; simpl.
    + apply String.eqb_eq in E. subst k.
      destruct (String.eqb c c'); reflexivity.
    + destruct (String.eqb c k) eqn:F.
      * destruct (String.eqb c c') eqn:G; [|reflexivity].
        apply String.eqb_eq in F, G. subst.
        rewrite String.eqb_refl in E. discriminate.
      * exact IH.
Qed.

Lemma lookup_update (c c' : string) (f : series -> series) (df : frame) :
  lookup c (update c' f df)
  = if String.eqb c c' then option_map f (lookup c df) else lookup c df.
Proof.
  unfold update. destruct (lookup c' df) as [s|] eqn:E.
  - rewrite lookup_setitem. destruct (String.eqb c c') eqn:F; [|reflexivity].
    apply String.eqb_eq in F. subst. rewrite E. reflexivity.
  - destruct (String.eqb c c') eqn:F; [|reflexivity].
    apply String.eqb_eq in F. subst. rewrite E. reflexivity.
Qed.

Lemma lookup_setitem_other (c c' : string) (s : series) (df : frame) :
  String.eqb c c' = false -> lookup c (setitem c' s df) = lookup c df.
Proof. intros E. rewrite lookup_setitem, E. reflexivity. Qed.

Lemma lookup_setitem_this (c : string) (s : series) (df : frame) :
  lookup c (setitem c s df) = Some s.
Proof. rewrite lookup_setitem, String.eqb_refl. reflexivity. Qed.

Lemma lookup_update_other (c c' : string) (f : series -> series)
      (df : frame) :
  String.eqb c c' = false -> lookup c (update c' f df) = lookup c df.
Proof. intros E. rewrite lookup_update, E. reflexivity. Qed.

Lemma lookup_update_this (c : string) (f : series -> series) (df : frame) :
  lookup c (update c f df) = option_map f (lookup c df).
Proof. rewrite lookup_update, String.eqb_refl. reflexivity. Qed.

(** The column [c] after a chain of guarded assignments. *)
Ltac through_updates :=
  repeat first [ rewrite lookup_update_this
               | rewrite lookup_update_other by reflexivity
               | rewrite lookup_setitem_this
               | rewrite lookup_setitem_other by reflexivity ].

Lemma lookup_filter_rows (c : string) (mask : list bool) (df : frame) :
  lookup c (filter_rows mask df) = option_map (select mask) (lookup c df).
Proof.
  induction df as [|[k t] df IH]; simpl; [reflexivity|].
  destruct (String.eqb c k); [reflexivity | exact IH].
Qed.

Lemma setitem_same (c : string) (s : series) (df : frame) :
  lookup c df = Some s -> setitem c s df = df.
Proof.
  induction df as [|[k t] df IH]; simpl; [discriminate|].
  destruct (String.eqb c k) eqn:E; intros H.
  - apply String.eqb_eq in E. injection H as ->. subst. reflexivity.
  - f_equal. apply IH, H.
Qed.

Lemma update_fixed (c : string) (f : series -> series) (df : frame) :
  (forall s, lookup c df = Some s -> f s = s) -> update c f df = df.
Proof.
  intros H. unfold update. destruct (lookup c df) as [s|] eqn:E;
    [|reflexivity].
  rewrite (H s eq_refl). apply setitem_same, E.
Qed.

Lemma has_column_lookup (c : string) (df : frame) :
  has_column c df = false <-> lookup c df = None.
Proof.
  unfold has_column. destruct (lookup c df); split; congruence.
Qed.

Lemma option_map_map {A B C : Type} (f : A -> B) (g : B -> C) (o : option A) :
  option_map g (option_map f o) = option_map (fun x => g (f x)) o.
Proof. destruct o; reflexivity. Qed.

Lemma option_map_ext {A B : Type} (f g : A -> B) (o : option A) :
  (forall x, f x = g x) -> option_map f o = option_map g o.
Proof. intros H. destruct o; simpl; [rewrite H|]; reflexivity. Qed.

Section ColumnsOfClean.

Context {parser : DatetimeParser}.

Lemma lookup_convert_billing (df : frame) :
  lookup "Billing Amount" (convert df)
  = option_map (map parse_billing)
               (lookup "Billing Amount" (strip_columns df)).
Proof.
  unfold convert, clean_text_cols, normalize_gender, convert_age,
    convert_billing, convert_dates. simpl fold_left.
  through_updates.
  rewrite option_map_map. apply option_map_ext. intros s.
  rewrite map_map. reflexivity.
Qed.

Lemma lookup_convert_gender (df : frame) :
  lookup "Gender" (convert df)
  = option_map (map gender_cell) (lookup "Gender" (strip_columns df)).
Proof.
  unfold convert, clean_text_cols, normalize_gender, convert_age,
    convert_billing, convert_dates. simpl fold_left.
  through_updates.
  rewrite option_map_map. apply option_map_ext. intros s.
  rewrite map_map. reflexivity.
Qed.

Lemma lookup_convert_age (df : frame) :
  lookup "Age" (convert df)
  = option_map (map to_numeric) (lookup "Age" (strip_columns df)).
Proof.
  unfold convert, clean_text_cols, normalize_gender, convert_age,
    convert_billing, convert_dates. simpl fold_left.
  through_updates. reflexivity.
Qed.

Lemma lookup_convert_date (df : frame) :
  lookup "Date of Admission" (convert df)
  = option_map to_datetime (lookup "Date of Admission" (strip_columns df)).
Proof.
  unfold convert, clean_text_cols, normalize_gender, convert_age,
    convert_billing, convert_dates. simpl fold_left.
  through_updates. reflexivity.
Qed.

End ColumnsOfClean.

(** ** Equality of cells and rows *)

Lemma date_eqb_eq (a b : date) : date_eqb a b = true <-> a = b.
Proof.
  destruct a as [y m d], b as [y' m' d']. unfold date_eqb. simpl.
  rewrite !andb_true_iff, Z.eqb_eq, !Nat.eqb_eq. split.
  - intros [[-> ->] ->]. reflexivity.
  - intros H. injection H as -> -> ->. auto.
Qed.

Lemma value_eqb_refl (v : value) : value_eqb v v = true.
Proof.
  destruct v; simpl; auto.
  - apply String.eqb_refl.
  - apply Qeq_bool_iff, Qeq_refl.
  - apply date_eqb_eq. reflexivity.
Qed.

Lemma value_eqb_sym (a b : value) : value_eqb a b = value_eqb b a.
Proof.
  destruct a, b; simpl; auto.
  - apply String.eqb_sym.
  - apply eq_true_iff_eq. rewrite !Qeq_bool_iff. split; apply Qeq_sym.
  - apply eq_true_iff_eq. rewrite !date_eqb_eq. split; congruence.
Qed.

Lemma value_eqb_trans (a b c : value) :
  value_eqb a b = true -> value_eqb b c = true -> value_eqb a c = true.
Proof.
  destruct a, b, c; simpl; try discriminate; auto.
  - rewrite !String.eqb_eq. congruence.
  - rewrite !Qeq_bool_iff. apply Qeq_trans.
  - rewrite !date_eqb_eq. congruence.
Qed.

Lemma value_eqb_isna (a b : value) :
  value_eqb a b = true -> isna a = isna b.
Proof. destruct a, b; simpl; auto; discriminate. Qed.

Lemma row_eqb_refl (r : row) : row_eqb r r = true.
Proof.
  induction r as [|v r IH]; simpl; [reflexivity|].
  rewrite value_eqb_refl. exact IH.
Qed.

Lemma row_eqb_sym (r r' : row) : row_eqb r r' = row_eqb r' r.
Proof.
  revert r'. induction r as [|v r IH]; intros [|v' r']; simpl; auto.
  rewrite value_eqb_sym, IH. reflexivity.
Qed.

Lemma row_eqb_trans (a b c : row) :
  row_eqb a b = true -> row_eqb b c = true -> row_eqb a c = true.
Proof.
  revert b c. induction a as [|x a IH]; intros [|y b] [|z c]; simpl;
    try discriminate; auto.
  rewrite !andb_true_iff. intros [H1 H2] [H3 H4]. split.
  - eapply value_eqb_trans; eauto.
  - eapply IH; eauto.
Qed.

Lemma row_eqb_nth (r r' : row) (p : nat) :
  row_eqb r r' = true -> value_eqb (nth p r NA) (nth p r' NA) = true.
Proof.
  revert r' p. induction r as [|v r IH]; intros [|v' r'] p; simpl;
    try discriminate.
  - destruct p; reflexivity.
  - rewrite andb_true_iff. intros [H1 H2]. destruct p; auto.
Qed.

(** [mem r l]: a row equal to [r] stands in [l]. *)
Definition mem (r : row) (l : list row) : bool := existsb (row_eqb r) l.

Lemma mem_eqb (r r' : row) (l : list row) :
  row_eqb r r' = true -> mem r l = mem r' l.
Proof.
  intros E. unfold mem. induction l as [|x l IH]; simpl; [reflexivity|].
  rewrite IH. f_equal. apply eq_true_iff_eq. split; intros H.
  - eapply row_eqb_trans; [|exact H]. rewrite row_eqb_sym. exact E.
  - eapply row_eqb_trans; eauto.
Qed.

Lemma mem_In (r : row) (l : list row) : In r l -> mem r l = true.
Proof.
  intros H. apply existsb_exists. exists r. split; auto using row_eqb_refl.
Qed.

(** ** Deduplication of a list of rows *)

(** The rows [drop_duplicates] keeps. *)
Definition dedup_from (seen rs : list row) : list row :=
  select (map negb (duplicated_from seen rs)) rs.

Definition dedup (rs : list row) : list row := dedup_from [] rs.

Lemma dedup_from_cons (seen : list row) (r : row) (rs : list row) :
  dedup_from seen (r :: rs)
  = if mem r seen then dedup_from (r :: seen) rs
    else r :: dedup_from (r :: seen) rs.
Proof.
  unfold dedup_from. simpl. fold (mem r seen).
  destruct (mem r seen); reflexivity.
Qed.

Definition count (r : row) (l : list row) : nat :=
  List.length (filter (row_eqb r) l).

(** A row is kept once when it occurs and was not seen before, and not at
    all otherwise. *)
Lemma count_dedup_from (r : row) (rs seen : list row) :
  count r (dedup_from seen rs)
  = if mem r seen then 0 else if mem r rs then 1 else 0.
Proof.
  revert seen. induction rs as [|x rs IH]; intros seen.
  - simpl. destruct (mem r seen); reflexivity.
  - rewrite dedup_from_cons.
    assert (M : mem r (x :: seen) = row_eqb r x || mem r seen)
      by reflexivity.
    assert (N : mem r (x :: rs) = row_eqb r x || mem r rs) by reflexivity.
    assert (C : forall l, count r (x :: l)
                          = if row_eqb r x then S (count r l) else count r l).
    { intros l. unfold count. simpl. destruct (row_eqb r x); reflexivity. }
    rewrite N. destruct (mem x seen) eqn:S.
    + rewrite IH, M. destruct (row_eqb r x) eqn:E; simpl.
      * rewrite (mem_eqb r x seen E), S. reflexivity.
      * reflexivity.
    + rewrite C, IH, M. destruct (row_eqb r x) eqn:E; simpl.
      * rewrite (mem_eqb r x seen E), S. reflexivity.
      * reflexivity.
Qed.

Lemma count_dedup (r : row) (rs : list row) :
  In r rs -> count r (dedup rs) = 1.
Proof.
  intros H. unfold dedup. rewrite count_dedup_from. simpl.
  rewrite (mem_In r rs H). reflexivity.
Qed.

Lemma select_In {A : Type} (mask : list bool) (l : list A) (x : A) :
  In x (select mask l) -> In x l.
Proof.
  revert l. induction mask as [|b mask IH]; intros [|y l]; simpl;
    try tauto.
  destruct b; simpl; intros H; [destruct H|]; auto.
Qed.

Lemma dedup_In (r : row) (rs : list row) : In r (dedup rs) -> In r rs.
Proof. apply select_In. Qed.

(** Every row has an equal row among the kept ones. *)
Lemma dedup_covers (r : row) (rs : list row) :
  In r rs -> exists r', In r' (dedup rs) /\ row_eqb r r' = true.
Proof.
  intros H. pose proof (count_dedup r rs H) as C. unfold count in C.
  destruct (filter (row_eqb r) (dedup rs)) as [|r' l] eqn:F;
    [discriminate|].
  assert (I : In r' (filter (row_eqb r) (dedup rs)))
    by (rewrite F; left; reflexivity).
  apply filter_In in I. exists r'. exact I.
Qed.

(** ** Rows and columns of a rectangular frame *)

Definition count_true (mask : list bool) : nat :=
  List.length (filter (fun b : bool => b) mask).

Lemma length_select {A : Type} (mask : list bool) (l : list A) :
  List.length l = List.length mask ->
  List.length (select mask l) = count_true mask.
Proof.
  revert l. unfold count_true.
  induction mask as [|b mask IH]; intros [|x l]; simpl; try discriminate;
    auto.
  intros H. injection H as H. destruct b; simpl; auto.
Qed.

Lemma select_repeat {A : Type} (mask : list bool) (x : A) :
  select mask (repeat x (List.length mask)) = repeat x (count_true mask).
Proof.
  unfold count_true. induction mask as [|b mask IH]; simpl; [reflexivity|].
  destruct b; simpl; rewrite IH; reflexivity.
Qed.

Lemma select_zip_cons (mask : list bool) (s : series) (rs : list row) :
  select mask (zip_cons s rs) = zip_cons (select mask s) (select mask rs).
Proof.
  revert s rs. induction mask as [|b mask IH]; intros [|v s] [|r rs]; simpl;
    try reflexivity.
  - destruct b; simpl; try reflexivity.
    destruct (select mask s); reflexivity.
  - destruct b; simpl; rewrite IH; reflexivity.
Qed.

Lemma length_zip_cons (s : series) (rs : list row) :
  List.length s = List.length rs ->
  List.length (zip_cons s rs) = List.length s.
Proof.
  revert rs. induction s as [|v s IH]; intros [|r rs]; simpl;
    try discriminate; auto.
Qed.

Lemma length_rows_of (n : nat) (df : frame) :
  table n df -> List.length (rows_of n df) = n.
Proof.
  induction 1 as [|[c s] df H _ IH]; simpl.
  - apply repeat_length.
  - simpl in H. rewrite length_zip_cons; congruence.
Qed.

Lemma length_df_rows (df : frame) :
  rect df -> List.length (df_rows df) = nrows df.
Proof. apply length_rows_of. Qed.

Lemma table_nrows (n : nat) (df : frame) :
  table n df -> df <> [] -> nrows df = n.
Proof.
  intros H N. destruct df as [|[c s] df]; [congruence|].
  inversion H; subst. reflexivity.
Qed.

Lemma table_rect (n : nat) (df : frame) : table n df -> rect df.
Proof.
  intros H. destruct df as [|cs df]; [constructor|].
  unfold rect. rewrite (table_nrows n (cs :: df) H); [exact H | discriminate].
Qed.

Lemma table_lookup (n : nat) (df : frame) (c : string) (s : series) :
  table n df -> lookup c df = Some s -> List.length s = n.
Proof.
  induction 1 as [|[k t] df H _ IH]; simpl; [discriminate|].
  destruct (String.eqb c k); [|exact IH].
  intros E. injection E as <-. exact H.
Qed.

Lemma table_setitem (n : nat) (df : frame) (c : string) (s : series) :
  table n df -> List.length s = n -> table n (setitem c s df).
Proof.
  intros T L. induction T as [|[k t] df H T IH]; simpl.
  - repeat constructor. exact L.
  - destruct (String.eqb c k); constructor; auto.
Qed.

Lemma table_update (n : nat) (df : frame) (c : string)
      (f : series -> series) :
  (forall s, List.length (f s) = List.length s) ->
  table n df -> table n (update c f df).
Proof.
  intros F T. unfold update. destruct (lookup c df) as [s|] eqn:E; [|exact T].
  apply table_setitem; [exact T|].
  rewrite F. eapply table_lookup; eauto.
Qed.

Lemma table_filter_rows (n : nat) (mask : list bool) (df : frame) :
  table n df -> List.length mask = n ->
  table (count_true mask) (filter_rows mask df).
Proof.
  intros T L. induction T as [|[k t] df H T IH]; simpl; constructor; auto.
  simpl in *. apply length_select. congruence.
Qed.

Lemma rows_of_filter_rows (n : nat) (mask : list bool) (df : frame) :
  table n df -> List.length mask = n ->
  rows_of (count_true mask) (filter_rows mask df)
  = select mask (rows_of n df).
Proof.
  intros T L. induction T as [|[k t] df H T IH]; simpl.
  - subst n. symmetry. apply select_repeat.
  - rewrite IH. symmetry. apply select_zip_cons.
Qed.

Lemma nrows_filter_rows (n : nat) (mask : list bool) (df : frame) :
  table n df -> List.length mask = n -> df <> [] ->
  nrows (filter_rows mask df) = count_true mask.
Proof.
  intros T L N. apply table_nrows.
  - apply (table_filter_rows n); assumption.
  - destruct df; [congruence | discriminate].
Qed.

Lemma length_duplicated_from (seen rs : list row) :
  List.length (duplicated_from seen rs) = List.length rs.
Proof.
  revert seen. induction rs as [|r rs IH]; intros seen; simpl; auto.
Qed.

Lemma length_keep_mask (df : frame) :
  rect df -> List.length (map negb (duplicated df)) = nrows df.
Proof.
  intros R. unfold duplicated.
  rewrite length_map, length_duplicated_from. apply length_df_rows, R.
Qed.

(** On a rectangular frame [drop_duplicates] keeps, of the rows, the first
    of each class of equal rows. *)
Lemma df_rows_drop_duplicates (df : frame) :
  rect df -> df_rows (drop_duplicates df) = dedup (df_rows df).
Proof.
  intros R. unfold drop_duplicates, df_rows at 1.
  assert (D : df = [] \/ df <> [])
    by (destruct df; [left; reflexivity | right; discriminate]).
  destruct D as [E|N].
  - subst. reflexivity.
  - rewrite (nrows_filter_rows (nrows df)); auto using length_keep_mask.
    rewrite (rows_of_filter_rows (nrows df)); auto using length_keep_mask.
Qed.

Lemma rect_drop_duplicates (df : frame) :
  rect df -> rect (drop_duplicates df).
Proof.
  intros R. eapply table_rect, (table_filter_rows (nrows df)); auto.
  apply length_keep_mask, R.
Qed.

(** The place of a column among the columns. *)
Fixpoint position (c : string) (df : frame) : nat :=
  match df with
  | [] => 0
  | (c', _) :: df' => if String.eqb c c' then 0 else S (position c df')
  end.

Lemma nth_zip_cons (s : series) (rs : list row) (i : nat) :
  i < List.length s -> i < List.length rs ->
  nth i (zip_cons s rs) [] = nth i s NA :: nth i rs [].
Proof.
  revert rs i. induction s as [|v s IH]; intros [|r rs] [|i]; simpl;
    try lia; auto.
  intros. apply IH; lia.
Qed.

(** The cell of column [c] in row [i]. *)
Lemma cell_of_row (n : nat) (df : frame) (c : string) (s : series) (i : nat) :
  table n df -> lookup c df = Some s -> i < n ->
  nth (position c df) (nth i (rows_of n df) []) NA = nth i s NA.
Proof.
  intros T. revert s. induction T as [|[k t] df H T IH]; simpl;
    [discriminate|].
  intros s E I. simpl in H.
  rewrite nth_zip_cons by (rewrite ?length_rows_of; auto; lia).
  destruct (String.eqb c k).
  - injection E as <-. reflexivity.
  - simpl. apply IH; assumption.
Qed.

(** ** The derived columns *)

Section Derived.

Context {parser : DatetimeParser}.

(** The frame after line 70. *)
Definition with_age_group (df : frame) : frame :=
  match lookup "Age" df with
  | Some a => setitem "Age Group" (map age_group a) df
  | None => df
  end.

Lemma lookup_with_age_group (c : string) (df : frame) :
  String.eqb c "Age Group" = false ->
  lookup c (with_age_group df) = lookup c df.
Proof.
  intros N. unfold with_age_group. destruct (lookup "Age" df); auto.
  rewrite lookup_setitem, N. reflexivity.
Qed.

(** With an admission date column the derivation succeeds, and it appends
    the three columns (or overwrites them where they stand). *)
Lemma derived_cols_ok (df : frame) (d : series) :
  lookup "Date of Admission" df = Some d ->
  derived_cols df
  = Ok (setitem "Month Name" (map dt_month_name d)
          (setitem "Admission Month" (map dt_month d)
             (setitem "Admission Year" (map dt_year d)
                (with_age_group df)))).
Proof.
  intros E. unfold derived_cols. fold (with_age_group df).
  unfold getitem.
  rewrite lookup_with_age_group by reflexivity. rewrite E. simpl.
  rewrite lookup_setitem. eval_labels.
  rewrite lookup_with_age_group by reflexivity. rewrite E. simpl.
  rewrite !lookup_setitem. eval_labels.
  rewrite lookup_with_age_group by reflexivity. rewrite E. reflexivity.
Qed.

(** Without one it raises. *)
Lemma derived_cols_raises (df : frame) :
  lookup "Date of Admission" df = None ->
  derived_cols df = Raise (KeyError "Date of Admission").
Proof.
  intros E. unfold derived_cols. fold (with_age_group df).
  unfold getitem.
  rewrite lookup_with_age_group by reflexivity. rewrite E. reflexivity.
Qed.

Lemma lookup_fill_missing_values (c : string) (df : frame) :
  lookup c (fill_missing_values df)
  = if String.eqb c "Billing Amount"
    then option_map fill_billing (lookup c df)
    else if String.eqb c "Gender" || String.eqb c "Insurance Provider"
            || String.eqb c "Blood Type"
         then option_map (fillna (Str "Unknown")) (lookup c df)
         else lookup c df.
Proof.
  unfold fill_missing_values. rewrite !lookup_update.
  destruct (String.eqb c "Blood Type") eqn:B.
  { apply String.eqb_eq in B. subst. reflexivity. }
  destruct (String.eqb c "Insurance Provider") eqn:I.
  { apply String.eqb_eq in I. subst. reflexivity. }
  destruct (String.eqb c "Gender") eqn:G.
  { apply String.eqb_eq in G. subst. reflexivity. }
  reflexivity.
Qed.

(** The admission date column of the frame that reaches line 72. *)
Lemma lookup_date_before_derived (df : frame) :
  lookup "Date of Admission"
         (fill_missing_values (drop_duplicates (convert df)))
  = option_map (fun s => select (map negb (duplicated (convert df)))
                                (to_datetime s))
               (lookup "Date of Admission" (strip_columns df)).
Proof.
  rewrite lookup_fill_missing_values. eval_labels. simpl.
  unfold drop_duplicates. rewrite lookup_filter_rows, lookup_convert_date.
  apply option_map_map.
Qed.

Lemma clean_eq (df : frame) :
  clean df
  = derived_cols (fill_missing_values (drop_duplicates (convert df))).
Proof. unfold clean. reflexivity. Qed.

Lemma clean_raises (df : frame) :
  has_column "Date of Admission" (strip_columns df) = false ->
  clean df = Raise (KeyError "Date of Admission").
Proof.
  intros H. apply has_column_lookup in H. unfold clean.
  apply derived_cols_raises. rewrite lookup_date_before_derived, H.
  reflexivity.
Qed.

Lemma clean_ok (df : frame) :
  has_column "Date of Admission" (strip_columns df) = true ->
  exists c, clean df = Ok c.
Proof.
  intros H. unfold has_column in H.
  destruct (lookup "Date of Admission" (strip_columns df)) as [s|] eqn:E;
    [|discriminate].
  unfold clean. eexists. apply derived_cols_ok.
  rewrite lookup_date_before_derived, E. reflexivity.
Qed.

(** A column of the cleaned frame other than the four derived ones is the
    column left by line 64. *)
Lemma lookup_clean (df c : frame) (k : string) :
  clean df = Ok c ->
  existsb (String.eqb k)
          ["Age Group"; "Admission Year"; "Admission Month"; "Month Name"]
  = false ->
  lookup k c
  = lookup k (fill_missing_values (drop_duplicates (convert df))).
Proof.
  unfold clean. intros C N.
  set (x := fill_missing_values (drop_duplicates (convert df))) in *.
  destruct (lookup "Date of Admission" x) as [d|] eqn:E.
  - rewrite (derived_cols_ok x d E) in C. apply Ok_inj in C. subst c.
    simpl in N. rewrite !orb_false_iff in N.
    destruct N as (N1 & N2 & N3 & N4 & _).
    rewrite !lookup_setitem, N4, N3, N2.
    apply lookup_with_age_group, N1.
  - rewrite (derived_cols_raises x E) in C. discriminate.
Qed.

End Derived.

(** ** C1: a table that lacks an optional column *)

Definition no_admission_date : frame :=
  [("Name", [Str "Ann"; Str "Bob"]);
   ("Age", [Str "17"; Str "41"]);
   ("Gender", [Str "F"; Str "M"]);
   ("Blood Type", [Str "A+"; Str "O-"]);
   ("Medical Condition", [Str "Flu"; Str "Asthma"]);
   ("Doctor", [Str "Who"; Str "House"]);
   ("Hospital", [Str "General"; Str "General"]);
   ("Insurance Provider", [Str "Acme"; Str "Acme"]);
   ("Billing Amount", [Str "100.5"; Str "20"])].

(** C1 (code defect).  The three columns derived from the admission date
    (lines 72-74) are computed without the column-existence check that guards
    the date conversion of line 28: on every table that has no
    "Date of Admission" column the script stops with a KeyError, before any
    output is written. *)
Theorem pipeline_without_admission_date `{DatetimeParser} (df : frame) :
  has_column "Date of Admission" (strip_columns df) = false ->
  pipeline df = Raise (KeyError "Date of Admission").
Proof.
  intros E. unfold pipeline. rewrite (clean_raises df E). reflexivity.
Qed.

Lemma pipeline_without_admission_date_witness :
  has_column "Date of Admission" (strip_columns no_admission_date) = false
  /\ pipeline no_admission_date = Raise (KeyError "Date of Admission").
Proof.
  split; [reflexivity|].
  apply (@pipeline_without_admission_date iso_dates no_admission_date).
  reflexivity.
Defined.

(** The KPI row (lines 84-88) reads the billing column without a check as
    well. *)
Lemma pipeline_without_billing_amount `{DatetimeParser} (df : frame) :
  has_column "Date of Admission" (strip_columns df) = true ->
  has_column "Billing Amount" (strip_columns df) = false ->
  pipeline df = Raise (KeyError "Billing Amount").
Proof.
  intros D B. destruct (clean_ok df D) as [c C].
  unfold pipeline. rewrite C. simpl.
  unfold compute_metrics, compute_kpi, getitem.
  rewrite (lookup_clean df c "Billing Amount" C eq_refl).
  rewrite lookup_fill_missing_values. eval_labels.
  unfold drop_duplicates.
  rewrite lookup_filter_rows, lookup_convert_billing.
  apply has_column_lookup in B. rewrite B. reflexivity.
Qed.

(** ** C2: Gender *)

Definition null_gender : frame :=
  [("Date of Admission",
    [Str "2023-01-05"; Str "2023-01-06"; Str "2023-01-07"]);
   ("Billing Amount", [Str "10"; Str "20"; Str "30"]);
   ("Gender", [NA; Str " m "; Str "FEMALE"])].

Lemma gender_cell_str (v : value) : exists s, gender_cell v = Str s.
Proof.
  unfold gender_cell, as_str. simpl.
  destruct (String.eqb _ "M"); [eauto|].
  destruct (String.eqb _ "F"); eauto.
Qed.

(** C2 (code defect).  A missing Gender does not become "Unknown":
    [astype(str)] of line 46 has already turned the missing cell into the
    string "nan", which title-casing makes "Nan", so the [fillna("Unknown")]
    of line 60 finds nothing to fill.  The rest of the normalisation is as
    claimed: " m " becomes "Male" and "FEMALE" becomes "Female". *)
Theorem null_gender_is_not_unknown :
  gender_cell NA = Str "Nan"
  /\ clean null_gender
     = Ok [("Date of Admission",
            [Date (mkDate 2023 1 5); Date (mkDate 2023 1 6);
             Date (mkDate 2023 1 7)]);
           ("Billing Amount", [Num 10; Num 20; Num 30]);
           ("Gender", [Str "Nan"; Str "Male"; Str "Female"]);
           ("Admission Year", [Num 2023; Num 2023; Num 2023]);
           ("Admission Month", [Str "2023-01"; Str "2023-01"; Str "2023-01"]);
           ("Month Name", [Str "Jan"; Str "Jan"; Str "Jan"])]%Q.
Proof. split; vm_compute; reflexivity. Qed.

(** ** C7: Age Group *)

Lemma Qlt_bool_iff (a b : Q) : Qlt_bool a b = true <-> (a < b)%Q.
Proof.
  unfold Qlt_bool. rewrite negb_true_iff. split.
  - intros H. apply Qnot_le_lt. intros L.
    apply Qle_bool_iff in L. congruence.
  - intros H. destruct (Qle_bool b a) eqn:E; [|reflexivity].
    apply Qle_bool_iff in E. exfalso. exact (Qlt_not_le _ _ H E).
Qed.

Lemma Qlt_bool_false (a b : Q) : Qlt_bool a b = false <-> (b <= a)%Q.
Proof.
  unfold Qlt_bool. rewrite negb_false_iff. apply Qle_bool_iff.
Qed.

(** The index [pd.cut] computes for a number, before the labels are
    looked up. *)
Definition bucket (x : Q) : nat :=
  if Qeq_bool x 0 then 1 else searchsorted_left bins x.

Lemma bucket_spec (x : Q) :
  ((x < 0)%Q -> bucket x = 0)
  /\ ((0 <= x <= 18)%Q -> bucket x = 1)
  /\ ((18 < x <= 40)%Q -> bucket x = 2)
  /\ ((40 < x <= 60)%Q -> bucket x = 3)
  /\ ((60 < x <= 200)%Q -> bucket x = 4)
  /\ ((200 < x)%Q -> bucket x = 5).
Proof.
  unfold bucket, searchsorted_left, bins. cbn [filter].
  destruct (Qeq_bool x 0) eqn:E0;
    [ apply Qeq_bool_iff in E0 | apply Qeq_bool_neq in E0 ];
  destruct (Qlt_bool 0 x) eqn:L0;
    [ apply Qlt_bool_iff in L0 | apply Qlt_bool_false in L0
    | apply Qlt_bool_iff in L0 | apply Qlt_bool_false in L0 ];
  (destruct (Qlt_bool 18 x) eqn:L1;
    [ apply Qlt_bool_iff in L1 | apply Qlt_bool_false in L1 ]);
  (destruct (Qlt_bool 40 x) eqn:L2;
    [ apply Qlt_bool_iff in L2 | apply Qlt_bool_false in L2 ]);
  (destruct (Qlt_bool 60 x) eqn:L3;
    [ apply Qlt_bool_iff in L3 | apply Qlt_bool_false in L3 ]);
  (destruct (Qlt_bool 200 x) eqn:L4;
    [ apply Qlt_bool_iff in L4 | apply Qlt_bool_false in L4 ]);
  cbn [List.length];
  repeat split; intros; try reflexivity; exfalso; lra.
Qed.

Lemma age_group_bucket (x : Q) :
  age_group (Num x)
  = if Nat.eqb (bucket x) 0 || Nat.eqb (bucket x) 5 then NA
    else nth (bucket x - 1) (map Str labels) NA.
Proof. reflexivity. Qed.


Lemma derived_age_group `{DatetimeParser} (x c : frame) :
  derived_cols x = Ok c ->
  lookup "Age" c = lookup "Age" x
  /\ (forall a, lookup "Age" x = Some a ->
                lookup "Age Group" c = Some (map age_group a)).
Proof.
  intros C.
  destruct (lookup "Date of Admission" x) as [d|] eqn:D.
  - rewrite (derived_cols_ok x d D) in C. apply Ok_inj in C.
    rewrite <- C. split.
    + through_updates. apply lookup_with_age_group. reflexivity.
    + intros a A. through_updates.
      unfold with_age_group. rewrite A. apply lookup_setitem_this.
  - rewrite (derived_cols_raises x D) in C. discriminate.
Qed.

(** C7.  [pd.cut] with the edges 0, 18, 40, 60, 200, right-closed intervals
    and the lowest edge included: an Age in [0,18] is a Child, in (18,40] an
    Adult, in (40,60] Middle, in (60,200] a Senior; an Age below 0 or above
    200 and a missing Age have no group; and the Age Group column of the
    cleaned frame is this function of its Age column. *)
Theorem age_group_buckets :
  (forall q, (0 <= q <= 18)%Q -> age_group (Num q) = Str "Child (0-18)")
  /\ (forall q, (18 < q <= 40)%Q -> age_group (Num q) = Str "Adult (19-40)")
  /\ (forall q, (40 < q <= 60)%Q -> age_group (Num q) = Str "Middle (41-60)")
  /\ (forall q, (60 < q <= 200)%Q -> age_group (Num q) = Str "Senior (61+)")
  /\ (forall q, (q < 0 \/ 200 < q)%Q -> age_group (Num q) = NA)
  /\ age_group NA = NA
  /\ map age_group [Num 17; Num 18; Num 19; Num 200; Num 201; Num (-1)]%Q
     = [Str "Child (0-18)"; Str "Child (0-18)"; Str "Adult (19-40)";
        Str "Senior (61+)"; NA; NA]
  /\ forall (parser : DatetimeParser) (df c : frame) (a : series),
       clean df = Ok c -> lookup "Age" c = Some a ->
       lookup "Age Group" c = Some (map age_group a).
Proof.
  repeat match goal with |- _ /\ _ => split end.
  - intros q H. destruct (bucket_spec q) as (_ & B & _).
    rewrite age_group_bucket, (B H). reflexivity.
  - intros q H. destruct (bucket_spec q) as (_ & _ & B & _).
    rewrite age_group_bucket, (B H). reflexivity.
  - intros q H. destruct (bucket_spec q) as (_ & _ & _ & B & _).
    rewrite age_group_bucket, (B H). reflexivity.
  - intros q H. destruct (bucket_spec q) as (_ & _ & _ & _ & B & _).
    rewrite age_group_bucket, (B H). reflexivity.
  - intros q H. destruct (bucket_spec q) as (B0 & _ & _ & _ & _ & B5).
    rewrite age_group_bucket. destruct H as [H|H].
    + rewrite (B0 H). reflexivity.
    + rewrite (B5 H). reflexivity.
  - reflexivity.
  - vm_compute. reflexivity.
  - intros parser df c a C A. rewrite clean_eq in C.
    destruct (derived_age_group _ _ C) as [E G].
    apply G. rewrite <- E. exact A.
Qed.

(** ** C8: admissions by month *)

Lemma ascii_compare_lt_trans (a b c : ascii) :
  Ascii.compare a b = Lt -> Ascii.compare b c = Lt -> Ascii.compare a c = Lt.
Proof.
  unfold Ascii.compare. rewrite !N.compare_lt_iff. apply N.lt_trans.
Qed.

Lemma string_compare_lt_trans (s t u : string) :
  String.compare s t = Lt -> String.compare t u = Lt ->
  String.compare s u = Lt.
Proof.
  revert t u. induction s as [|a s IH]; intros [|b t] [|c u]; simpl;
    try discriminate; auto.
  destruct (Ascii.compare a b) eqn:AB; try discriminate;
    destruct (Ascii.compare b c) eqn:BC; try discriminate; intros H1 H2.
  - apply Ascii.compare_eq_iff in AB, BC. subst.
    assert (R : Ascii.compare c c = Eq)
      by (unfold Ascii.compare; apply N.compare_refl).
    rewrite R. eapply IH; eauto.
  - apply Ascii.compare_eq_iff in AB. subst. rewrite BC. reflexivity.
  - apply Ascii.compare_eq_iff in BC. subst. rewrite AB. reflexivity.
  - rewrite (ascii_compare_lt_trans a b c AB BC). reflexivity.
Qed.

Lemma string_compare_refl (s : string) : String.compare s s = Eq.
Proof.
  induction s as [|a s IH]; simpl; [reflexivity|].
  assert (R : Ascii.compare a a = Eq)
    by (unfold Ascii.compare; apply N.compare_refl).
  rewrite R. exact IH.
Qed.

Definition key_lt (a b : string * nat) : Prop :=
  String.ltb (fst a) (fst b) = true.

Lemma ltb_compare (s t : string) :
  String.ltb s t = true <-> String.compare s t = Lt.
Proof.
  unfold String.ltb. destruct (String.compare s t); split; congruence.
Qed.

Lemma key_lt_trans (a b c : string * nat) :
  key_lt a b -> key_lt b c -> key_lt a c.
Proof.
  unfold key_lt. rewrite !ltb_compare. apply string_compare_lt_trans.
Qed.

(** The table of a [groupby]: keys strictly increasing. *)
Definition ordered (g : list (string * nat)) : Prop :=
  StronglySorted key_lt g.

(** The size recorded for the group [k]; 0 when there is no such group. *)
Fixpoint size (k : string) (g : list (string * nat)) : nat :=
  match g with
  | [] => 0
  | (k', n) :: g' => if String.eqb k k' then n else size k g'
  end.

Lemma size_below (k : string) (g : list (string * nat)) :
  Forall (fun e => String.compare k (fst e) = Lt) g -> size k g = 0.
Proof.
  induction 1 as [|[k' n] g H _ IH]; simpl; [reflexivity|].
  simpl in H. destruct (String.eqb k k') eqn:E; [|exact IH].
  apply String.eqb_eq in E. subst.
  rewrite string_compare_refl in H. discriminate.
Qed.

Lemma ordered_below (k : string) (n : nat) (g : list (string * nat)) :
  ordered ((k, n) :: g) ->
  Forall (fun e => String.compare k (fst e) = Lt) g.
Proof.
  intros O. apply StronglySorted_inv in O. destruct O as [_ F].
  eapply Forall_impl; [|exact F]. intros e H.
  apply ltb_compare. exact H.
Qed.

Lemma bump_keys (k : string) (g : list (string * nat)) (e : string * nat) :
  In e (bump k g) -> fst e = k \/ In (fst e) (map fst g).
Proof.
  induction g as [|[k' n] g IH]; simpl.
  - intros [<-|[]]. auto.
  - destruct (String.compare k k') eqn:C; simpl.
    + intros [<-|H]; auto.
      right. right. apply in_map. exact H.
    + intros [<-|[<-|H]]; auto.
      right. right. apply in_map. exact H.
    + intros [<-|H]; auto.
      destruct (IH H) as [?|?]; auto.
Qed.

Lemma bump_ordered (k : string) (g : list (string * nat)) :
  ordered g -> ordered (bump k g).
Proof.
  induction g as [|[k' n] g IH]; simpl; intros O.
  - repeat constructor.
  - pose proof (StronglySorted_inv O) as [O' F].
    destruct (String.compare k k') eqn:C.
    + constructor; [exact O'|]. exact F.
    + constructor; [exact O|]. constructor.
      * apply ltb_compare. exact C.
      * eapply Forall_impl; [|exact F]. intros e H.
        eapply (key_lt_trans (k, 1) (k', n)); [|exact H].
        apply ltb_compare. exact C.
    + constructor; [apply IH, O'|].
      apply Forall_forall. intros e I.
      destruct (bump_keys k g e I) as [E|E].
      * unfold key_lt. simpl. rewrite E. apply ltb_compare.
        rewrite String.compare_antisym, C. reflexivity.
      * apply in_map_iff in E. destruct E as [e' [E I']].
        rewrite Forall_forall in F. specialize (F e' I').
        unfold key_lt in *. rewrite <- E. exact F.
Qed.

Lemma bump_size (k k' : string) (g : list (string * nat)) :
  ordered g ->
  size k' (bump k g) = if String.eqb k' k then S (size k' g) else size k' g.
Proof.
  induction g as [|[h n] g IH]; simpl; intros O.
  - destruct (String.eqb k' k); reflexivity.
  - pose proof (StronglySorted_inv O) as [O' _].
    destruct (String.compare k h) eqn:C; simpl.
    + apply String.compare_eq_iff in C. subst h.
      destruct (String.eqb k' k); reflexivity.
    + destruct (String.eqb k' k) eqn:E; [|reflexivity].
      apply String.eqb_eq in E. subst k'.
      destruct (String.eqb k h) eqn:F.
      * apply String.eqb_eq in F. subst.
        rewrite string_compare_refl in C. discriminate.
      * rewrite size_below; [reflexivity|].
        pose proof (ordered_below h n g O) as B.
        eapply Forall_impl; [|exact B]. intros e H.
        eapply string_compare_lt_trans; eauto.
    + destruct (String.eqb k' h) eqn:F.
      * destruct (String.eqb k' k) eqn:E; [|reflexivity].
        apply String.eqb_eq in E, F. subst.
        rewrite string_compare_refl in C. discriminate.
      * apply IH, O'.
Qed.

Definition positive (g : list (string * nat)) : Prop :=
  Forall (fun e => 0 < snd e) g.

Lemma bump_positive (k : string) (g : list (string * nat)) :
  positive g -> positive (bump k g).
Proof.
  induction 1 as [|[h n] g H P IH]; simpl.
  - repeat constructor.
  - destruct (String.compare k h); constructor; simpl in *;
      try lia; auto; constructor; auto.
Qed.

Lemma In_size (k : string) (n : nat) (g : list (string * nat)) :
  ordered g -> positive g ->
  (In (k, n) g <-> size k g = n /\ 0 < n).
Proof.
  induction g as [|[h m] g IH]; simpl; intros O P.
  - split; [tauto | lia].
  - pose proof (StronglySorted_inv O) as [O' _].
    inversion P as [|? ? Pm P']; subst. simpl in Pm.
    destruct (String.eqb k h) eqn:E.
    + apply String.eqb_eq in E. subst h. split.
      * intros [H|H]; [injection H as ->; auto|].
        exfalso. pose proof (ordered_below k m g O) as B.
        rewrite Forall_forall in B. specialize (B _ H). simpl in B.
        rewrite string_compare_refl in B. discriminate.
      * intros [-> _]. auto.
    + rewrite <- (IH O' P'). split; [|auto].
      intros [H|H]; [|exact H]. injection H as -> ->.
      rewrite String.eqb_refl in E. discriminate.
Qed.

Definition occurrences (k : string) (keys : list string) : nat :=
  List.length (filter (String.eqb k) keys).

Lemma fold_bump (keys : list string) (g : list (string * nat)) :
  ordered g -> positive g ->
  let r := fold_left (fun g k => bump k g) keys g in
  ordered r /\ positive r
  /\ forall k, size k r = size k g + occurrences k keys.
Proof.
  revert g. induction keys as [|x keys IH]; intros g O P; simpl.
  - repeat split; auto.
  - destruct (IH (bump x g) (bump_ordered x g O) (bump_positive x g P))
      as (O' & P' & S').
    repeat split; auto. intros k. rewrite S', (bump_size x k g O).
    unfold occurrences. simpl. destruct (String.eqb k x); simpl; lia.
Qed.

Lemma group_sizes_spec (keys : list string) :
  ordered (group_sizes keys)
  /\ forall k n, In (k, n) (group_sizes keys)
                 <-> n = occurrences k keys /\ 0 < n.
Proof.
  destruct (fold_bump keys [] (SSorted_nil _) (Forall_nil _)) as (O & P & S).
  split; [exact O|]. intros k n. unfold group_sizes.
  rewrite (In_size k n _ O P), S. simpl. split; intros [? ?]; split; auto.
Qed.

Lemma sort_values_ordered (g : list (string * nat)) :
  ordered g -> sort_values g = g.
Proof.
  induction 1 as [|e g O IH F]; simpl; [reflexivity|].
  unfold sort_values in *. simpl. rewrite IH.
  destruct g as [|e' g]; [reflexivity|]. simpl.
  inversion F as [|? ? H _]; subst. unfold key_lt in H.
  apply ltb_compare in H. unfold String.leb. rewrite H. reflexivity.
Qed.

(** The number of rows with an admission date whose Admission Month is the
    text [k]. *)
Definition admissions (d m : series) (k : string) : nat :=
  List.length
    (filter (fun dm => notna (fst dm) && value_eqb (snd dm) (Str k))
            (combine d m)).

Lemma occurrences_app (k : string) (l l' : list string) :
  occurrences k (l ++ l') = occurrences k l + occurrences k l'.
Proof. unfold occurrences. rewrite filter_app, length_app. reflexivity. Qed.

Lemma occurrences_cell (k : string) (v : value) :
  occurrences k match v with Str k' => [k'] | _ => [] end
  = if value_eqb v (Str k) then 1 else 0.
Proof.
  destruct v; try reflexivity. unfold occurrences. simpl.
  rewrite (String.eqb_sym k s). destruct (String.eqb s k); reflexivity.
Qed.

Lemma occurrences_admissions (k : string) (d m : series) :
  occurrences k (group_keys (select (map notna d) m)) = admissions d m k.
Proof.
  unfold admissions, group_keys.
  revert m. induction d as [|v d IH]; intros [|x m]; simpl; try reflexivity.
  destruct (notna v); simpl; [|apply IH].
  rewrite occurrences_app, occurrences_cell, IH.
  destruct (value_eqb x (Str k)); reflexivity.
Qed.

Lemma monthly_eq (df : frame) (d m : series) :
  lookup "Date of Admission" df = Some d ->
  lookup "Admission Month" df = Some m ->
  monthly df
  = Ok (sort_values (group_sizes (group_keys (select (map notna d) m)))).
Proof.
  intros D M. unfold monthly, getitem. rewrite D. simpl.
  rewrite lookup_filter_rows, M. reflexivity.
Qed.

Lemma derived_dates `{DatetimeParser} (x c : frame) :
  derived_cols x = Ok c ->
  exists d,
    lookup "Date of Admission" c = Some d
    /\ lookup "Admission Year" c = Some (map dt_year d)
    /\ lookup "Admission Month" c = Some (map dt_month d)
    /\ lookup "Month Name" c = Some (map dt_month_name d).
Proof.
  intros C.
  destruct (lookup "Date of Admission" x) as [d|] eqn:D.
  - rewrite (derived_cols_ok x d D) in C. apply Ok_inj in C.
    rewrite <- C. exists d. repeat split; through_updates; auto.
    rewrite lookup_with_age_group by reflexivity. exact D.
  - rewrite (derived_cols_raises x D) in C. discriminate.
Qed.

Definition null_admission : frame :=
  [("Date of Admission", [NA; Str "2023-01-05"]);
   ("Billing Amount", [Str "10"; Str "20"])].

Definition null_admission_clean : frame :=
  [("Date of Admission", [NA; Date (mkDate 2023 1 5)]);
   ("Billing Amount", [Num 10; Num 20]);
   ("Admission Year", [NA; Num 2023]);
   ("Admission Month", [Str "NaT"; Str "2023-01"]);
   ("Month Name", [NA; Str "Jan"])]%Q.

(** C8, as claimed, fails: the row without an admission date has the
    non-null Admission Month "NaT", and it is not in the table. *)
Lemma month_of_missing_date_not_counted :
  clean null_admission = Ok null_admission_clean
  /\ lookup "Admission Month" null_admission_clean
     = Some [Str "NaT"; Str "2023-01"]
  /\ monthly null_admission_clean = Ok [("2023-01", 1)].
Proof. repeat split; vm_compute; reflexivity. Qed.

Definition three_admissions : frame :=
  [("Date of Admission",
    [Str "2023-01-05"; Str "2023-01-20"; Str "2023-02-01"]);
   ("Billing Amount", [Str "10"; Str "20"; Str "30"])].

Definition three_admissions_clean : frame :=
  [("Date of Admission",
    [Date (mkDate 2023 1 5); Date (mkDate 2023 1 20);
     Date (mkDate 2023 2 1)]);
   ("Billing Amount", [Num 10; Num 20; Num 30]);
   ("Admission Year", [Num 2023; Num 2023; Num 2023]);
   ("Admission Month", [Str "2023-01"; Str "2023-01"; Str "2023-02"]);
   ("Month Name", [Str "Jan"; Str "Jan"; Str "Feb"])]%Q.

(** C8 (amended).  The admissions-by-month table counts the rows that have
    an admission date, by Admission Month: its months are strictly
    increasing, and a month stands in it with the count [n] exactly when [n]
    rows with a date have that month and [n] is not zero.  For the months
    "2023-01", "2023-01", "2023-02" it is ("2023-01", 2), ("2023-02", 1). *)
Theorem admissions_by_month_table `{DatetimeParser} (df c : frame) :
  clean df = Ok c ->
  (exists d m r,
      lookup "Date of Admission" c = Some d
      /\ lookup "Admission Month" c = Some m
      /\ monthly c = Ok r
      /\ StronglySorted
           (fun a b => String.ltb (fst a) (fst b) = true) r
      /\ forall k n, In (k, n) r <-> n = admissions d m k /\ 0 < n)
  /\ monthly three_admissions_clean = Ok [("2023-01", 2); ("2023-02", 1)].
Proof.
  intros C. split; [|vm_compute; reflexivity].
  rewrite clean_eq in C.
  destruct (derived_dates _ _ C) as (d & D & _ & M & _).
  destruct (group_sizes_spec
              (group_keys (select (map notna d) (map dt_month d))))
    as [O S].
  exists d, (map dt_month d). eexists.
  split; [exact D|]. split; [exact M|].
  split; [apply (monthly_eq c d _ D M)|].
  rewrite (sort_values_ordered _ O). split; [exact O|].
  intros k n. rewrite S, occurrences_admissions. reflexivity.
Qed.

Lemma admissions_by_month_table_witness :
  clean three_admissions = Ok three_admissions_clean
  /\ exists d m r,
      lookup "Date of Admission" three_admissions_clean = Some d
      /\ lookup "Admission Month" three_admissions_clean = Some m
      /\ monthly three_admissions_clean = Ok r
      /\ StronglySorted
           (fun a b => String.ltb (fst a) (fst b) = true) r
      /\ forall k n, In (k, n) r <-> n = admissions d m k /\ 0 < n.
Proof.
  split; [vm_compute; reflexivity|].
  apply (@admissions_by_month_table iso_dates three_admissions
                                    three_admissions_clean).
  vm_compute; reflexivity.
Defined.

(** ** C5: rows without an admission date *)

(** C5, as claimed, fails: the Admission Month of a row without a date is
    the string "NaT", not a missing value. *)
Lemma month_of_missing_date_is_text :
  clean null_admission = Ok null_admission_clean
  /\ lookup "Date of Admission" null_admission_clean
     = Some [NA; Date (mkDate 2023 1 5)]
  /\ lookup "Admission Month" null_admission_clean
     = Some [Str "NaT"; Str "2023-01"]
  /\ isna (Str "NaT") = false.
Proof. repeat split; vm_compute; reflexivity. Qed.

(** C5 (amended).  For every row of the cleaned frame whose admission date
    is missing, the Admission Year and the Month Name are missing, and the
    Admission Month is the string "NaT". *)
Theorem derived_of_missing_date `{DatetimeParser} (df c : frame) :
  clean df = Ok c ->
  exists d y m b,
    lookup "Date of Admission" c = Some d
    /\ lookup "Admission Year" c = Some y
    /\ lookup "Admission Month" c = Some m
    /\ lookup "Month Name" c = Some b
    /\ forall i, i < List.length d -> nth i d NA = NA ->
                 nth i y NA = NA /\ nth i m NA = Str "NaT"
                 /\ nth i b NA = NA.
Proof.
  intros C. rewrite clean_eq in C.
  destruct (derived_dates _ _ C) as (d & D & Y & M & B).
  exists d, (map dt_year d), (map dt_month d), (map dt_month_name d).
  repeat (split; [assumption|]).
  intros i I E.
  rewrite (nth_indep _ NA (dt_year NA)) by (rewrite length_map; exact I).
  rewrite (nth_indep (map dt_month d) NA (dt_month NA))
    by (rewrite length_map; exact I).
  rewrite (nth_indep (map dt_month_name d) NA (dt_month_name NA))
    by (rewrite length_map; exact I).
  rewrite !map_nth, E. repeat split.
Qed.

Lemma derived_of_missing_date_witness :
  clean null_admission = Ok null_admission_clean
  /\ exists d y m b,
    lookup "Date of Admission" null_admission_clean = Some d
    /\ lookup "Admission Year" null_admission_clean = Some y
    /\ lookup "Admission Month" null_admission_clean = Some m
    /\ lookup "Month Name" null_admission_clean = Some b
    /\ forall i, i < List.length d -> nth i d NA = NA ->
                 nth i y NA = NA /\ nth i m NA = Str "NaT"
                 /\ nth i b NA = NA.
Proof.
  split; [vm_compute; reflexivity|].
  apply (@derived_of_missing_date iso_dates null_admission
                                  null_admission_clean).
  vm_compute; reflexivity.
Defined.
(** ** Rectangular frames through the cleaning *)

Lemma table_strip_columns (n : nat) (df : frame) :
  table n df -> table n (strip_columns df).
Proof.
  unfold table, strip_columns. rewrite Forall_map. simpl. auto.
Qed.

Lemma length_fillna (x : value) (s : series) :
  List.length (fillna x s) = List.length s.
Proof. apply length_map. Qed.

Lemma length_fill_billing (s : series) :
  List.length (fill_billing s) = List.length s.
Proof.
  unfold fill_billing. destruct (existsb isna s); auto using length_fillna.
Qed.

Section Tables.

Context {parser : DatetimeParser}.

Lemma table_convert (n : nat) (df : frame) :
  table n df -> table n (convert df).
Proof.
  intros T. unfold convert, clean_text_cols, normalize_gender, convert_age,
    convert_billing, convert_dates. simpl fold_left.
  repeat (apply table_update;
          [ intros s; (apply length_map || apply to_datetime_length) |]).
  apply table_strip_columns, T.
Qed.

Lemma table_fill_missing_values (n : nat) (df : frame) :
  table n df -> table n (fill_missing_values df).
Proof.
  intros T. unfold fill_missing_values.
  repeat (apply table_update;
          [ intros s; (apply length_fillna || apply length_fill_billing) |]).
  exact T.
Qed.

Lemma rect_convert (df : frame) : rect df -> rect (convert df).
Proof. intros R. eapply table_rect, table_convert, R. Qed.

Lemma table_with_age_group (n : nat) (df : frame) :
  table n df -> table n (with_age_group df).
Proof.
  intros T. unfold with_age_group.
  destruct (lookup "Age" df) as [a|] eqn:E; [|exact T].
  apply table_setitem; [exact T|].
  rewrite length_map. eapply table_lookup; eauto.
Qed.

Lemma table_derived_cols (n : nat) (x c : frame) :
  table n x -> derived_cols x = Ok c -> table n c.
Proof.
  intros T C.
  destruct (lookup "Date of Admission" x) as [d|] eqn:D.
  - rewrite (derived_cols_ok x d D) in C. apply Ok_inj in C. subst c.
    assert (L : List.length d = n) by (eapply table_lookup; eauto).
    repeat (apply table_setitem; [|rewrite length_map; exact L]).
    apply table_with_age_group, T.
  - rewrite (derived_cols_raises x D) in C. discriminate.
Qed.

End Tables.

(** ** The rows [drop_duplicates] keeps *)

Lemma kept_row (rs seen : list row) (i : nat) :
  i < List.length rs -> mem (nth i rs []) seen = false ->
  exists j, j < List.length rs
            /\ nth j (duplicated_from seen rs) true = false
            /\ row_eqb (nth i rs []) (nth j rs []) = true.
Proof.
  revert seen i. induction rs as [|r rs IH]; intros seen i I M;
    [simpl in I; lia|].
  destruct i as [|i]; simpl in *.
  - exists 0. repeat split; [lia | exact M | apply row_eqb_refl].
  - destruct (row_eqb (nth i rs []) r) eqn:E.
    + exists 0. repeat split; [lia | | exact E].
      fold (mem r seen). rewrite <- (mem_eqb _ _ seen E). exact M.
    + destruct (IH (r :: seen) i) as (j & J & D & Q); [lia | |].
      * unfold mem in *. simpl. rewrite E, M. reflexivity.
      * exists (S j). repeat split; [lia | exact D | exact Q].
Qed.

Lemma select_nth_In {A : Type} (mask : list bool) (l : list A) (j : nat)
      (d : A) :
  nth j mask false = true -> j < List.length l ->
  In (nth j l d) (select mask l).
Proof.
  revert l j. induction mask as [|b mask IH]; intros [|x l] [|j]; simpl;
    try discriminate; try lia.
  - intros -> _. left. reflexivity.
  - intros H L. destruct b; [right|]; apply IH; auto; lia.
Qed.

(** Every cell of a column has an equal cell in the column after
    [drop_duplicates]. *)
Lemma kept_cell (df : frame) (c : string) (s : series) (i : nat) :
  rect df -> lookup c df = Some s -> i < List.length s ->
  exists v, In v (select (map negb (duplicated df)) s)
            /\ value_eqb (nth i s NA) v = true.
Proof.
  intros R L I.
  assert (N : List.length s = nrows df) by (eapply table_lookup; eauto).
  pose proof (length_df_rows df R) as LR.
  destruct (kept_row (df_rows df) [] i) as (j & J & D & Q);
    [lia | reflexivity |].
  exists (nth j s NA). split.
  - apply select_nth_In; [|lia].
    unfold duplicated.
    rewrite (nth_indep _ false (negb true))
      by (rewrite length_map, length_duplicated_from; exact J).
    rewrite map_nth, D. reflexivity.
  - rewrite <- (cell_of_row (nrows df) df c s i R L) by lia.
    rewrite <- (cell_of_row (nrows df) df c s j R L) by lia.
    apply row_eqb_nth, Q.
Qed.

(** ** Median and imputation *)

Lemma length_insert_q (x : Q) (l : list Q) :
  List.length (insert_q x l) = S (List.length l).
Proof.
  induction l as [|y l IH]; simpl; [reflexivity|].
  destruct (Qle_bool x y); simpl; auto.
Qed.

Lemma length_sort_q (l : list Q) : List.length (sort_q l) = List.length l.
Proof.
  induction l as [|x l IH]; simpl; [reflexivity|].
  rewrite length_insert_q. f_equal. exact IH.
Qed.

Lemma median_num (s : series) (q : Q) :
  In (Num q) s -> exists m, median s = Num m.
Proof.
  intros H. unfold median.
  assert (N : numbers s <> []).
  { unfold numbers. intros E.
    assert (I : In q (flat_map (fun v => match v with
                                         | Num q => [q] | _ => [] end) s))
      by (apply in_flat_map; exists (Num q); split; [exact H | left; auto]).
    rewrite E in I. exact I. }
  rewrite length_sort_q. destruct (numbers s) as [|x l]; [congruence|].
  simpl List.length. cbv iota.
  destruct (Nat.odd (S (List.length l))); eauto.
Qed.

Lemma median_na (s : series) :
  (forall q, ~ In (Num q) s) -> median s = NA.
Proof.
  intros H. unfold median.
  assert (N : numbers s = []).
  { unfold numbers. destruct (flat_map _ s) as [|q l] eqn:E; [reflexivity|].
    assert (I : In q (flat_map (fun v => match v with
                                         | Num q => [q] | _ => [] end) s))
      by (rewrite E; left; reflexivity).
    apply in_flat_map in I. destruct I as [v [I J]].
    destruct v; simpl in J; try tauto. destruct J as [<-|[]].
    destruct (H _ I). }
  rewrite N. reflexivity.
Qed.

Lemma numbers_notna (s : series) : numbers (filter notna s) = numbers s.
Proof.
  unfold numbers. induction s as [|v s IH]; simpl; [reflexivity|].
  destruct v; simpl; rewrite IH; reflexivity.
Qed.

Lemma median_notna (s : series) : median (filter notna s) = median s.
Proof. unfold median. rewrite numbers_notna. reflexivity. Qed.

Lemma fillna_without_na (x : value) (s : series) :
  existsb isna s = false -> fillna x s = s.
Proof.
  unfold fillna. induction s as [|v s IH]; simpl; [reflexivity|].
  rewrite orb_false_iff. intros [E F]. rewrite E, IH; auto.
Qed.

Lemma fill_billing_fillna (s : series) :
  fill_billing s = fillna (median s) s.
Proof.
  unfold fill_billing. destruct (existsb isna s) eqn:E; [reflexivity|].
  symmetry. apply fillna_without_na, E.
Qed.

Lemma parse_billing_kind (v : value) :
  parse_billing v = NA \/ exists q, parse_billing v = Num q.
Proof.
  unfold parse_billing, as_str, str_replace_billing, to_numeric.
  destruct (Numeric.parse_float _); eauto.
Qed.

Section Billing.

Context {parser : DatetimeParser}.

(** The Billing Amount column before the imputation of line 58. *)
Definition billing_before_fill (df : frame) (s0 : series) : series :=
  select (map negb (duplicated (convert df))) (map parse_billing s0).

Lemma lookup_billing_dedup (df : frame) (s0 : series) :
  lookup "Billing Amount" (strip_columns df) = Some s0 ->
  lookup "Billing Amount" (drop_duplicates (convert df))
  = Some (billing_before_fill df s0).
Proof.
  intros E. unfold drop_duplicates.
  rewrite lookup_filter_rows, lookup_convert_billing, E.
  unfold billing_before_fill. cbn [option_map]. reflexivity.
Qed.

Lemma lookup_billing_clean (df c : frame) (s0 : series) :
  clean df = Ok c ->
  lookup "Billing Amount" (strip_columns df) = Some s0 ->
  lookup "Billing Amount" c
  = Some (fillna (median (billing_before_fill df s0))
                 (billing_before_fill df s0)).
Proof.
  intros C E. rewrite (lookup_clean df c "Billing Amount" C eq_refl).
  rewrite lookup_fill_missing_values.
  change (String.eqb "Billing Amount" "Billing Amount") with true.
  cbv iota. rewrite (lookup_billing_dedup df s0 E). simpl.
  rewrite fill_billing_fillna. reflexivity.
Qed.

End Billing.

(** ** C3 and C4: Billing Amount *)

Lemma keep_all_chars (p : ascii -> bool) (s : string) :
  Text.all_chars p (Text.keep p s) = true.
Proof.
  induction s as [|c s IH]; simpl; [reflexivity|].
  destruct (p c) eqn:E; simpl; [rewrite E|]; exact IH.
Qed.

Lemma keep_sub (p : ascii -> bool) (s : string) :
  Text.sub (Text.keep p s) s.
Proof.
  induction s as [|c s IH]; simpl; [constructor|].
  destruct (p c); constructor; exact IH.
Qed.

Lemma keep_fixed (p : ascii -> bool) (s : string) :
  Text.all_chars p s = true -> Text.keep p s = s.
Proof.
  induction s as [|c s IH]; simpl; [reflexivity|].
  rewrite andb_true_iff. intros [E F]. rewrite E, IH; auto.
Qed.

Definition unparseable_billing : frame :=
  [("Date of Admission", [Str "2023-01-05"]);
   ("Billing Amount", [Str "abc"])].

Definition unparseable_billing_clean : frame :=
  [("Date of Admission", [Date (mkDate 2023 1 5)]);
   ("Billing Amount", [NA]);
   ("Admission Year", [Num 2023]);
   ("Admission Month", [Str "2023-01"]);
   ("Month Name", [Str "Jan"])]%Q.

(** C3, as claimed, fails: when no Billing Amount of the table can be
    parsed the median is NaN and the column stays missing. *)
Lemma billing_stays_missing :
  has_column "Billing Amount" unparseable_billing = true
  /\ clean unparseable_billing = Ok unparseable_billing_clean
  /\ lookup "Billing Amount" unparseable_billing_clean = Some [NA].
Proof. repeat split; vm_compute; reflexivity. Qed.

Definition billing_example : frame :=
  [("Date of Admission",
    [Str "2023-01-05"; Str "2023-01-06"; Str "2023-01-07"]);
   ("Billing Amount", [Str "$1,234.56"; Str "abc"; Str "10"])].

Definition billing_example_clean : frame :=
  [("Date of Admission",
    [Date (mkDate 2023 1 5); Date (mkDate 2023 1 6);
     Date (mkDate 2023 1 7)]);
   ("Billing Amount", [Num (30864 # 25); Num (15557 # 25); Num 10]);
   ("Admission Year", [Num 2023; Num 2023; Num 2023]);
   ("Admission Month", [Str "2023-01"; Str "2023-01"; Str "2023-01"]);
   ("Month Name", [Str "Jan"; Str "Jan"; Str "Jan"])]%Q.

Definition is_number (v : value) : Prop := exists q, v = Num q.

Lemma billing_before_fill_kind `{DatetimeParser} (df : frame) (s0 : series)
      (x : value) :
  In x (billing_before_fill df s0) -> x = NA \/ is_number x.
Proof.
  unfold billing_before_fill. intros X.
  apply select_In in X. apply in_map_iff in X.
  destruct X as (u & <- & _). apply parse_billing_kind.
Qed.

Lemma value_eqb_num (q : Q) (x : value) :
  value_eqb (Num q) x = true -> is_number x.
Proof. destruct x; simpl; try discriminate. intros _. exists q0. auto. Qed.

Lemma billing_before_fill_number `{DatetimeParser} (df : frame)
      (s0 : series) (v : value) :
  rect df ->
  lookup "Billing Amount" (strip_columns df) = Some s0 ->
  In v s0 -> parse_billing v <> NA ->
  exists q, In (Num q) (billing_before_fill df s0).
Proof.
  intros R E I P. unfold billing_before_fill.
  destruct (In_nth s0 v NA I) as (i & L & N).
  assert (B : lookup "Billing Amount" (convert df)
              = Some (map parse_billing s0)).
  { rewrite lookup_convert_billing, E. cbn [option_map]. reflexivity. }
  destruct (kept_cell (convert df) "Billing Amount" (map parse_billing s0) i
                      (rect_convert df R) B)
    as (x & X & Q); [rewrite length_map; exact L|].
  assert (Z : nth i (map parse_billing s0) NA = parse_billing v).
  { rewrite <- N. clear. revert i.
    induction s0 as [|u s0 IH]; intros [|i]; simpl; auto. }
  rewrite Z in Q.
  destruct (parse_billing_kind v) as [F|[q F]]; [contradiction|].
  rewrite F in Q. destruct (value_eqb_num q x Q) as [q' ->].
  exists q'. exact X.
Qed.

(** C3 (amended).  For every table with a Billing Amount column in which at
    least one Billing Amount can be parsed, every Billing Amount of the
    cleaned table is a number. *)
Theorem billing_not_null `{DatetimeParser} (df c : frame) (s0 : series) :
  rect df ->
  clean df = Ok c ->
  lookup "Billing Amount" (strip_columns df) = Some s0 ->
  (exists v, In v s0 /\ parse_billing v <> NA) ->
  exists s, lookup "Billing Amount" c = Some s /\ Forall is_number s.
Proof.
  intros R C E (v & I & P).
  exists (fillna (median (billing_before_fill df s0))
                 (billing_before_fill df s0)).
  split; [exact (lookup_billing_clean df c s0 C E)|].
  destruct (billing_before_fill_number df s0 v R E I P) as [q Q].
  destruct (median_num _ q Q) as [m M]. rewrite M. unfold fillna.
  apply Forall_forall. intros x X. apply in_map_iff in X.
  destruct X as (u & <- & U).
  destruct (billing_before_fill_kind df s0 u U) as [->|[q' ->]]; simpl;
    unfold is_number; eauto.
Qed.

Lemma billing_not_null_witness :
  rect billing_example
  /\ clean billing_example = Ok billing_example_clean
  /\ exists s, lookup "Billing Amount" billing_example_clean = Some s
               /\ Forall is_number s.
Proof.
  assert (R : rect billing_example) by (repeat constructor).
  split; [exact R|]. split; [vm_compute; reflexivity|].
  apply (@billing_not_null iso_dates billing_example billing_example_clean
           [Str "$1,234.56"; Str "abc"; Str "10"] R).
  - vm_compute; reflexivity.
  - reflexivity.
  - exists (Str "10"). split; [simpl; tauto|]. vm_compute. discriminate.
Defined.

(** C4.  The Billing Amount of a cell is what [to_numeric] reads in the
    text left when every character outside [0-9.-] has been removed;
    "$1,234.56" gives 1234.56 and "abc" gives a missing value; and a missing
    value of the de-duplicated column is replaced by the median of the
    non-missing values of that column, taken before the replacement. *)
Theorem billing_amount_parsing :
  (forall v, parse_billing v
             = to_numeric (Str (Text.keep billing_char (astype_str v))))
  /\ (forall s, Text.all_chars billing_char (Text.keep billing_char s) = true
                /\ Text.sub (Text.keep billing_char s) s)
  /\ (forall s, Text.all_chars billing_char s = true ->
                Text.keep billing_char s = s)
  /\ parse_billing (Str "$1,234.56") = Num (30864 # 25)
  /\ (30864 # 25 == 123456 # 100)%Q
  /\ parse_billing (Str "abc") = NA
  /\ (forall (parser : DatetimeParser) (df c : frame) (s0 : series),
        clean df = Ok c ->
        lookup "Billing Amount" (strip_columns df) = Some s0 ->
        exists s1,
          lookup "Billing Amount" (drop_duplicates (convert df)) = Some s1
          /\ lookup "Billing Amount" c
             = Some (map (fun v => if isna v
                                   then median (filter notna s1) else v)
                         s1))
  /\ clean billing_example = Ok billing_example_clean.
Proof.
  repeat match goal with |- _ /\ _ => split end.
  - reflexivity.
  - intros s. split; [apply keep_all_chars | apply keep_sub].
  - apply keep_fixed.
  - vm_compute; reflexivity.
  - reflexivity.
  - vm_compute; reflexivity.
  - intros parser df c s0 C E. exists (billing_before_fill df s0).
    split; [apply lookup_billing_dedup, E|].
    rewrite (lookup_billing_clean df c s0 C E), median_notna.
    reflexivity.
  - vm_compute; reflexivity.
Qed.

(** ** C9: duplicate rows *)

Lemma nth_rows_of (n : nat) (df : frame) (i : nat) :
  table n df -> i < n ->
  nth i (rows_of n df) [] = map (fun cs => nth i (snd cs) NA) df.
Proof.
  intros T I. induction T as [|[k s] df H T IH]; simpl.
  - apply nth_repeat_lt. exact I.
  - simpl in H. rewrite nth_zip_cons
      by (rewrite ?length_rows_of; auto; lia).
    rewrite IH. reflexivity.
Qed.

(** The rows [i] and [j] hold the same cells, column by column. *)
Definition agree (i j : nat) (df : frame) : Prop :=
  Forall (fun cs => nth i (snd cs) NA = nth j (snd cs) NA) df.

Lemma agree_rows (n : nat) (df : frame) (i j : nat) :
  table n df -> i < n -> j < n ->
  (agree i j df <-> nth i (rows_of n df) [] = nth j (rows_of n df) []).
Proof.
  intros T I J. rewrite !(nth_rows_of n) by assumption. unfold agree.
  clear T. induction df as [|cs df IH]; simpl.
  - split; auto.
  - split.
    + intros A. inversion A; subst. f_equal; [assumption | apply IH; auto].
    + intros E. injection E as E1 E2. constructor; [exact E1 | apply IH, E2].
Qed.

Lemma agree_lookup (i j : nat) (df : frame) (c : string) (s : series) :
  agree i j df -> lookup c df = Some s -> nth i s NA = nth j s NA.
Proof.
  induction 1 as [|[k t] df H _ IH]; simpl; [discriminate|].
  destruct (String.eqb c k); [|exact IH].
  intros E. injection E as <-. exact H.
Qed.

Lemma agree_setitem (i j : nat) (df : frame) (c : string) (s : series) :
  agree i j df -> nth i s NA = nth j s NA -> agree i j (setitem c s df).
Proof.
  intros A E. induction A as [|[k t] df H A IH]; simpl.
  - repeat constructor. exact E.
  - destruct (String.eqb c k); constructor; auto.
Qed.

Lemma agree_update (n i j : nat) (df : frame) (c : string)
      (f : series -> series) :
  table n df -> agree i j df ->
  (forall s, List.length s = n -> nth i s NA = nth j s NA ->
             nth i (f s) NA = nth j (f s) NA) ->
  agree i j (update c f df).
Proof.
  intros T A F. unfold update.
  destruct (lookup c df) as [s|] eqn:E; [|exact A].
  apply agree_setitem; [exact A|].
  apply F; [eapply table_lookup | eapply agree_lookup]; eauto.
Qed.

Lemma nth_map_cells (g : value -> value) (s : series) (i j : nat) :
  i < List.length s -> j < List.length s ->
  nth i s NA = nth j s NA ->
  nth i (map g s) NA = nth j (map g s) NA.
Proof.
  intros I J E.
  rewrite (nth_indep (map g s) NA (g NA)) by (rewrite length_map; exact I).
  rewrite (nth_indep (map g s) NA (g NA) (n := j))
    by (rewrite length_map; exact J).
  rewrite !map_nth, E. reflexivity.
Qed.

Lemma agree_strip_columns (i j : nat) (df : frame) :
  agree i j df -> agree i j (strip_columns df).
Proof.
  unfold agree, strip_columns. rewrite Forall_map. simpl. auto.
Qed.

Lemma agree_convert `{DatetimeParser} (n i j : nat) (df : frame) :
  table n df -> i < n -> j < n -> agree i j df -> agree i j (convert df).
Proof.
  intros T I J A.
  unfold convert, clean_text_cols, normalize_gender, convert_age,
    convert_billing, convert_dates. simpl fold_left.
  repeat
    (apply (agree_update n);
     [ repeat (apply table_update;
               [ intros s; (apply length_map || apply to_datetime_length) |]);
       apply table_strip_columns, T
     |
     | first [ intros s L E; apply nth_map_cells; (lia || exact E)
             | intros s L E; apply to_datetime_same, E ] ]).
  apply agree_strip_columns, A.
Qed.

Lemma duplicated_seen (rs seen : list row) (j : nat) :
  j < List.length rs -> mem (nth j rs []) seen = true ->
  nth j (duplicated_from seen rs) false = true.
Proof.
  revert seen j. induction rs as [|r rs IH]; intros seen [|j]; simpl;
    try lia; auto.
  intros J M. apply IH; [lia|].
  unfold mem in *. simpl. rewrite M. apply orb_true_r.
Qed.

(** The later of two equal rows is marked as a duplicate. *)
Lemma duplicated_later (rs seen : list row) (i j : nat) :
  i < j -> j < List.length rs ->
  row_eqb (nth j rs []) (nth i rs []) = true ->
  nth j (duplicated_from seen rs) false = true.
Proof.
  revert seen i j. induction rs as [|r rs IH]; intros seen i [|j]; simpl;
    try lia.
  intros I J E. destruct i as [|i].
  - apply duplicated_seen; [lia|].
    unfold mem. simpl. rewrite E. reflexivity.
  - apply (IH _ i); auto; lia.
Qed.

Lemma pipeline_total_patients `{DatetimeParser} (df c : frame)
      (m : metrics) :
  pipeline df = Ok (c, m) ->
  clean df = Ok c /\ total_patients (kpis m) = nrows c.
Proof.
  unfold pipeline. destruct (clean df) as [c'|e]; simpl; [|discriminate].
  unfold compute_metrics, compute_kpi.
  destruct (getitem "Billing Amount" c') as [b|e]; simpl; [|discriminate].
  destruct (monthly c') as [r|e]; simpl; [|discriminate].
  destruct (has_column "Medical Condition" c'); simpl;
    destruct (has_column "Blood Type" c'); simpl;
    intros E; apply Ok_inj in E; injection E as <- <-; auto.
Qed.

Lemma nrows_clean `{DatetimeParser} (df c : frame) :
  rect df -> clean df = Ok c ->
  nrows c = List.length (df_rows (drop_duplicates (convert df))).
Proof.
  intros R C.
  pose proof (rect_drop_duplicates _ (rect_convert df R)) as Y.
  rewrite (length_df_rows _ Y).
  rewrite clean_eq in C.
  apply table_nrows.
  - eapply table_derived_cols; [|exact C].
    apply table_fill_missing_values. exact Y.
  - destruct (derived_dates _ _ C) as (d & D & _).
    intros ->. discriminate.
Qed.

Lemma setitem_not_nil (c : string) (s : series) (df : frame) :
  setitem c s df <> [].
Proof.
  destruct df as [|[k t] df]; simpl; [discriminate|].
  destruct (String.eqb c k); discriminate.
Qed.

Lemma update_not_nil (c : string) (f : series -> series) (df : frame) :
  df <> [] -> update c f df <> [].
Proof.
  intros N. unfold update. destruct (lookup c df); [|exact N].
  apply setitem_not_nil.
Qed.

Lemma nrows_convert `{DatetimeParser} (df : frame) :
  rect df -> nrows (convert df) = nrows df.
Proof.
  intros R. destruct df as [|cs df]; [reflexivity|].
  apply table_nrows; [apply table_convert, R|].
  unfold convert, clean_text_cols, normalize_gender, convert_age,
    convert_billing, convert_dates. simpl fold_left.
  repeat apply update_not_nil. discriminate.
Qed.

(** C9.  When two rows of the input are identical, they are still identical
    when [drop_duplicates] runs, the later one is marked as a duplicate and
    dropped, exactly one row equal to them is left, and the metrics are
    computed on the rows that are left (Total Patients is their number). *)
Theorem duplicate_rows_removed `{DatetimeParser} (df : frame) (i j : nat) :
  rect df -> i < j -> j < nrows df ->
  nth i (df_rows df) [] = nth j (df_rows df) [] ->
  nth i (df_rows (convert df)) [] = nth j (df_rows (convert df)) []
  /\ nth j (duplicated (convert df)) false = true
  /\ df_rows (drop_duplicates (convert df)) = dedup (df_rows (convert df))
  /\ count (nth i (df_rows (convert df)) [])
           (df_rows (drop_duplicates (convert df))) = 1
  /\ forall c m, pipeline df = Ok (c, m) ->
                 total_patients (kpis m)
                 = List.length (df_rows (drop_duplicates (convert df))).
Proof.
  intros R I J E.
  pose proof (table_convert _ _ R) as T.
  pose proof (rect_convert df R) as RC.
  pose proof (nrows_convert df R) as N.
  pose proof (length_df_rows _ RC) as L. rewrite N in L.
  assert (A : agree i j (convert df)).
  { apply (agree_convert (nrows df)); try assumption; try lia.
    apply (agree_rows (nrows df)); try assumption; lia. }
  assert (E' : nth i (df_rows (convert df)) []
               = nth j (df_rows (convert df)) []).
  { unfold df_rows. rewrite N.
    apply (agree_rows (nrows df)); try assumption; lia. }
  split; [exact E'|]. split.
  { unfold duplicated. apply (duplicated_later _ _ i); try lia.
    rewrite E'. apply row_eqb_refl. }
  split; [apply df_rows_drop_duplicates, RC|]. split.
  { rewrite (df_rows_drop_duplicates _ RC). apply count_dedup.
    apply nth_In. lia. }
  intros c m P. destruct (pipeline_total_patients df c m P) as [C ->].
  apply nrows_clean; assumption.
Qed.

Lemma duplicate_rows_removed_witness :
  rect sample /\ 1 < 2 /\ 2 < nrows sample
  /\ nth 1 (df_rows sample) [] = nth 2 (df_rows sample) []
  /\ nth 2 (duplicated (convert sample)) false = true
  /\ count (nth 1 (df_rows (convert sample)) [])
           (df_rows (drop_duplicates (convert sample))) = 1.
Proof.
  assert (R : rect sample) by (repeat constructor).
  assert (I : 1 < 2) by lia.
  assert (J : 2 < nrows sample) by (simpl; lia).
  assert (E : nth 1 (df_rows sample) [] = nth 2 (df_rows sample) [])
    by reflexivity.
  pose proof (@duplicate_rows_removed iso_dates sample 1 2 R I J E)
    as (_ & D & _ & C & _).
  repeat split; assumption.
Defined.

(** ** C10: figures *)

Module Charts.

Import Pyplot.

(** The calls that draw on the current figure. *)
Definition draws (c : call) : bool :=
  match c with
  | Figure _ _ | Savefig _ _ | Close => false
  | _ => true
  end.

(** The bodies of the three rendering functions. *)
Inductive chart_body : list call -> Prop :=
| body_bar xy t p r : chart_body (save_bar xy t p r)
| body_pie t p : chart_body (save_pie t p)
| body_line t p : chart_body (save_line t p).

Definition path_of (body : list call) : string :=
  match filter (fun c => match c with Savefig _ _ => true | _ => false end)
               body with
  | Savefig p _ :: _ => p
  | _ => ""
  end.

Definition savefig_raises (c : call) : bool :=
  match c with Savefig _ _ => true | _ => false end.

Definition no_figure : state := mkState [] [].

(** The calls of a body that has returned did not raise. *)
Ltac run_body :=
  repeat match goal with
         | H : context [if ?raises ?c then _ else _] |- _ =>
             destruct (raises c); [discriminate H|]
         end.

(** A rendering call that returns has closed the figure it opened, and the
    file it wrote holds its own drawing only. *)
Lemma run_chart_done (raises : call -> bool) (body : list call)
      (st st' : state) :
  chart_body body -> run raises body st = (st', Done) ->
  figures st' = figures st
  /\ files st' = (path_of body, 150, rev (filter draws body)) :: files st.
Proof.
  intros B R. destruct B as [xy t p r | t p | t p].
  - destruct xy, r; cbn in R; run_body; injection R as <-; split;
      reflexivity.
  - cbn in R. run_body. injection R as <-. split; reflexivity.
  - cbn in R. run_body. injection R as <-. split; reflexivity.
Qed.

(** When no call raises, a rendering call returns. *)
Lemma run_chart_returns (body : list call) (st : state) :
  chart_body body ->
  exists st', run (fun _ => false) body st = (st', Done).
Proof.
  intros B. destruct B as [xy t p r | t p | t p];
    [destruct xy, r|..]; eexists; reflexivity.
Qed.

Lemma charts_bodies (df : frame) (months : list (string * nat)) :
  Forall chart_body (charts df months).
Proof.
  unfold charts.
  repeat (apply Forall_app; split);
    repeat match goal with
           | |- Forall _ (if ?b then _ else _) => destruct b
           | |- Forall _ (match ?m with [] => _ | _ :: _ => _ end) =>
               destruct m
           end;
    repeat constructor.
Qed.

Lemma starts_figures (raises : call -> bool) (cs : list (list call))
      (st : state) :
  Forall chart_body cs ->
  Forall (fun s => figures s = figures st) (starts raises cs st).
Proof.
  intros F. revert st. induction F as [|body cs B F IH]; intros st; simpl.
  - constructor.
  - constructor; [reflexivity|].
    destruct (run raises body st) as [st' [|c]] eqn:R; [|constructor].
    destruct (run_chart_done raises body st st' B R) as [E _].
    rewrite <- E. apply IH.
Qed.

End Charts.

(** C10, as claimed, fails: the figure is not released when saving raises;
    [plt.close()] is not reached and the figure stays open. *)
Lemma figure_left_open_when_savefig_raises :
  Pyplot.run Charts.savefig_raises
             (Pyplot.save_pie "Gender Distribution"
                "outputs/figures/gender_distribution.png")
             Charts.no_figure
  = (Pyplot.mkState
       [[Pyplot.TightLayout; Pyplot.Title "Gender Distribution";
         Pyplot.Pie]] [],
     Pyplot.Raised
       (Pyplot.Savefig "outputs/figures/gender_distribution.png" 150)).
Proof. reflexivity. Qed.

(** C10 (amended).  A rendering call that returns has opened a new figure,
    drawn on it, saved it to its path at 150 dpi and closed it: the open
    figures are those it found, and the file holds its own drawing only.
    When no call raises, it returns.  There is no release on failure; an
    exception ends the script, so every chart of a run, whatever raises,
    is started with the figures open that were open when the first one was
    started. *)
Theorem chart_figures (raises : Pyplot.call -> bool) (df : frame)
        (months : list (string * nat)) (st : Pyplot.state) :
  Forall (fun body =>
            (forall st0 st1,
                Pyplot.run raises body st0 = (st1, Pyplot.Done) ->
                Pyplot.figures st1 = Pyplot.figures st0
                /\ Pyplot.files st1
                   = (Charts.path_of body, 150,
                      rev (filter Charts.draws body)) :: Pyplot.files st0)
            /\ (forall st0, exists st1,
                   Pyplot.run (fun _ => false) body st0 = (st1, Pyplot.Done)))
         (charts df months)
  /\ Forall (fun s => Pyplot.figures s = Pyplot.figures st)
            (starts raises (charts df months) st).
Proof.
  split.
  - eapply Forall_impl; [|apply Charts.charts_bodies].
    intros body B. split.
    + intros st0 st1. apply Charts.run_chart_done, B.
    + intros st0. apply Charts.run_chart_returns, B.
  - apply Charts.starts_figures, Charts.charts_bodies.
Qed.

(** ** C6: cleaning the cleaned table again *)

(** The strings [read_csv] reads as missing. *)
Definition na_values : list string :=
  [""; "#N/A"; "#N/A N/A"; "#NA"; "-1.#IND"; "-1.#QNAN"; "-NaN"; "-nan";
   "1.#IND"; "1.#QNAN"; "<NA>"; "N/A"; "NA"; "NULL"; "NaN"; "None"; "n/a";
   "nan"; "null"].

(** A cell written by [to_csv] and read back by [read_csv]: a missing cell
    is written as the empty field and read as missing, a number is read as
    a number, a timestamp is written as its date and read as text. *)
Definition reload_cell (v : value) : value :=
  match v with
  | NA => NA
  | Str s => if existsb (String.eqb s) na_values then NA else Str s
  | Num q => Num q
  | Date d => Str (astype_str (Date d))
  end.

(** [pd.read_csv] of the file written by [df.to_csv(path, index=False)]. *)
Definition reload (df : frame) : frame :=
  map (fun cs => (fst cs, map reload_cell (snd cs))) df.

(** [df.duplicated().any()] *)
Definition has_duplicates (df : frame) : bool :=
  existsb (fun b : bool => b) (duplicated df).

Lemma select_all {A : Type} (mask : list bool) (l : list A) :
  existsb negb mask = false -> List.length l <= List.length mask ->
  select mask l = l.
Proof.
  revert l. induction mask as [|b mask IH]; intros [|x l]; simpl; auto;
    try lia.
  rewrite orb_false_iff. intros [B E] L. destruct b; [|discriminate].
  f_equal. apply IH; [exact E | lia].
Qed.

Lemma filter_rows_all (n : nat) (mask : list bool) (df : frame) :
  table n df -> existsb negb mask = false -> List.length mask = n ->
  filter_rows mask df = df.
Proof.
  intros T E L. induction T as [|[k s] df H T IH]; simpl; [reflexivity|].
  simpl in H. rewrite IH, select_all; auto; lia.
Qed.

Lemma drop_duplicates_without (df : frame) :
  rect df -> has_duplicates df = false -> drop_duplicates df = df.
Proof.
  intros R H. unfold drop_duplicates.
  apply (filter_rows_all (nrows df)); [exact R | | apply length_keep_mask, R].
  unfold has_duplicates in H. revert H.
  induction (duplicated df) as [|b l IH]; simpl; [auto|].
  rewrite !orb_false_iff. intros [-> E]. auto.
Qed.

Lemma fillna_NA (s : series) : fillna NA s = s.
Proof.
  unfold fillna. induction s as [|v s IH]; simpl; [reflexivity|].
  rewrite IH. destruct v; reflexivity.
Qed.

Lemma fillna_fills (x : value) (s : series) :
  isna x = false -> existsb isna (fillna x s) = false.
Proof.
  intros X. unfold fillna. induction s as [|v s IH]; simpl; [reflexivity|].
  rewrite IH. destruct (isna v) eqn:E; rewrite ?X, ?E; reflexivity.
Qed.

Lemma fillna_twice (x : value) (s : series) :
  isna x = false -> fillna x (fillna x s) = fillna x s.
Proof. intros X. apply fillna_without_na, fillna_fills, X. Qed.

Lemma median_kind (s : series) :
  median s = NA \/ exists m, median s = Num m.
Proof.
  unfold median. destruct (List.length (sort_q (numbers s))); [auto|].
  destruct (Nat.odd _); eauto.
Qed.

Lemma fill_billing_twice (s : series) :
  fill_billing (fill_billing s) = fill_billing s.
Proof.
  rewrite (fill_billing_fillna s).
  destruct (median_kind s) as [M|[m M]]; rewrite M.
  - rewrite fillna_NA, fill_billing_fillna, M. apply fillna_NA.
  - unfold fill_billing at 1. rewrite fillna_fills; reflexivity.
Qed.

Section Again.

Context {parser : DatetimeParser}.

Lemma lookup_fill_billing (y : frame) :
  lookup "Billing Amount" (fill_missing_values y)
  = option_map fill_billing (lookup "Billing Amount" y).
Proof. unfold fill_missing_values. cbv zeta. through_updates. reflexivity. Qed.

Lemma lookup_fill_gender (y : frame) :
  lookup "Gender" (fill_missing_values y)
  = option_map (fillna (Str "Unknown")) (lookup "Gender" y).
Proof. unfold fill_missing_values. cbv zeta. through_updates. reflexivity. Qed.

Lemma lookup_fill_insurance (y : frame) :
  lookup "Insurance Provider" (fill_missing_values y)
  = option_map (fillna (Str "Unknown")) (lookup "Insurance Provider" y).
Proof. unfold fill_missing_values. cbv zeta. through_updates. reflexivity. Qed.

Lemma lookup_fill_blood (y : frame) :
  lookup "Blood Type" (fill_missing_values y)
  = option_map (fillna (Str "Unknown")) (lookup "Blood Type" y).
Proof. unfold fill_missing_values. cbv zeta. through_updates. reflexivity. Qed.

Lemma option_map_fixed {A : Type} (f : A -> A) (o : option A) (s : A) :
  (forall x, f (f x) = f x) -> option_map f o = Some s -> f s = s.
Proof.
  intros F. destruct o as [x|]; simpl; [|discriminate].
  intros E. injection E as <-. apply F.
Qed.

(** The columns of a cleaned frame that lines 57-64 fill are filled. *)
Lemma fill_missing_values_clean (df c : frame) :
  clean df = Ok c -> fill_missing_values c = c.
Proof.
  intros C. unfold fill_missing_values. cbv zeta.
  rewrite (update_fixed "Billing Amount" fill_billing c).
  2:{ intros s E.
      rewrite (lookup_clean df c "Billing Amount" C eq_refl),
        lookup_fill_billing in E.
      exact (option_map_fixed _ _ _ fill_billing_twice E). }
  rewrite (update_fixed "Gender" (fillna (Str "Unknown")) c).
  2:{ intros s E.
      rewrite (lookup_clean df c "Gender" C eq_refl),
        lookup_fill_gender in E.
      exact (option_map_fixed _ _ _
               (fun x => fillna_twice (Str "Unknown") x eq_refl) E). }
  rewrite (update_fixed "Insurance Provider" (fillna (Str "Unknown")) c).
  2:{ intros s E.
      rewrite (lookup_clean df c "Insurance Provider" C eq_refl),
        lookup_fill_insurance in E.
      exact (option_map_fixed _ _ _
               (fun x => fillna_twice (Str "Unknown") x eq_refl) E). }
  apply update_fixed.
  intros s E.
  rewrite (lookup_clean df c "Blood Type" C eq_refl),
    lookup_fill_blood in E.
  exact (option_map_fixed _ _ _
           (fun x => fillna_twice (Str "Unknown") x eq_refl) E).
Qed.

(** The derived columns of a cleaned frame are already in place. *)
Lemma derived_cols_clean (x c : frame) :
  derived_cols x = Ok c -> derived_cols c = Ok c.
Proof.
  intros C.
  destruct (derived_dates x c C) as (d & D & Y & M & B).
  destruct (derived_age_group x c C) as [A G].
  rewrite (derived_cols_ok c d D).
  assert (W : with_age_group c = c).
  { unfold with_age_group. destruct (lookup "Age" c) as [a|] eqn:E;
      [|reflexivity].
    apply setitem_same, G. rewrite <- A. reflexivity. }
  rewrite W, (setitem_same _ _ _ Y), (setitem_same _ _ _ M),
    (setitem_same _ _ _ B).
  reflexivity.
Qed.

End Again.

Definition imputed_duplicate : frame :=
  [("Date of Admission", [Str "2023-01-05"; Str "2023-01-05"]);
   ("Billing Amount", [Str "10"; Str "abc"])].

Definition imputed_duplicate_clean : frame :=
  [("Date of Admission", [Date (mkDate 2023 1 5); Date (mkDate 2023 1 5)]);
   ("Billing Amount", [Num 10; Num 10]);
   ("Admission Year", [Num 2023; Num 2023]);
   ("Admission Month", [Str "2023-01"; Str "2023-01"]);
   ("Month Name", [Str "Jan"; Str "Jan"])]%Q.

Definition imputed_duplicate_again : frame :=
  [("Date of Admission", [Date (mkDate 2023 1 5)]);
   ("Billing Amount", [Num 10]);
   ("Admission Year", [Num 2023]);
   ("Admission Month", [Str "2023-01"]);
   ("Month Name", [Str "Jan"])]%Q.




(** * Further properties of the script *)

(** ** Which columns the script needs *)

Lemma has_column_update (k c : string) (f : series -> series) (df : frame) :
  has_column k (update c f df) = has_column k df.
Proof.
  unfold has_column. rewrite lookup_update.
  destruct (String.eqb k c); [|reflexivity].
  destruct (lookup k df); reflexivity.
Qed.

Lemma has_column_filter_rows (k : string) (mask : list bool) (df : frame) :
  has_column k (filter_rows mask df) = has_column k df.
Proof.
  unfold has_column. rewrite lookup_filter_rows.
  destruct (lookup k df); reflexivity.
Qed.

Lemma has_column_setitem (k c : string) (s : series) (df : frame) :
  has_column k (setitem c s df) = String.eqb k c || has_column k df.
Proof.
  unfold has_column. rewrite lookup_setitem.
  destruct (String.eqb k c); reflexivity.
Qed.

Lemma has_column_of_lookup (k : string) (a b : frame) :
  lookup k a = lookup k b -> has_column k a = has_column k b.
Proof. unfold has_column. intros ->. reflexivity. Qed.

Section Needs.

Context {parser : DatetimeParser}.

Lemma has_column_convert (k : string) (df : frame) :
  has_column k (convert df) = has_column k (strip_columns df).
Proof.
  unfold convert, clean_text_cols, normalize_gender, convert_age,
    convert_billing, convert_dates. simpl fold_left.
  rewrite !has_column_update. reflexivity.
Qed.

Lemma has_column_fill_missing_values (k : string) (df : frame) :
  has_column k (fill_missing_values df) = has_column k df.
Proof.
  unfold fill_missing_values. cbv zeta.
  rewrite !has_column_update. reflexivity.
Qed.

(** The columns of the input are the columns of the cleaned frame, apart
    from the four derived ones. *)
Lemma has_column_clean (df c : frame) (k : string) :
  clean df = Ok c ->
  existsb (String.eqb k)
          ["Age Group"; "Admission Year"; "Admission Month"; "Month Name"]
  = false ->
  has_column k c = has_column k (strip_columns df).
Proof.
  intros C N.
  rewrite (has_column_of_lookup k c _ (lookup_clean df c k C N)).
  rewrite has_column_fill_missing_values. unfold drop_duplicates.
  rewrite has_column_filter_rows. apply has_column_convert.
Qed.

Lemma pipeline_without_admission_date_raises (df : frame) :
  has_column "Date of Admission" (strip_columns df) = false ->
  pipeline df = Raise (KeyError "Date of Admission").
Proof.
  intros E. unfold pipeline. rewrite (clean_raises df E). reflexivity.
Qed.

(** The metric files written for a cleaned frame. *)
Definition metric_files_for (condition blood : bool) : list string :=
  ["kpis.csv"]
  ++ (if condition then ["medical_condition_counts.csv"] else [])
  ++ ["admissions_by_month.csv"]
  ++ (if condition then ["avg_billing_by_condition.csv"] else [])
  ++ (if blood
      then ["blood_type_counts.csv"; "avg_billing_by_bloodtype.csv"]
      else []).

Lemma compute_metrics_ok (c : frame) (b d m : series) :
  lookup "Billing Amount" c = Some b ->
  lookup "Date of Admission" c = Some d ->
  lookup "Admission Month" c = Some m ->
  exists k r,
    compute_kpi c = Ok k /\ monthly c = Ok r
    /\ compute_metrics c
       = Ok (mkMetrics k r
               (metric_files_for (has_column "Medical Condition" c)
                                 (has_column "Blood Type" c))).
Proof.
  intros B D M.
  assert (K : exists k, compute_kpi c = Ok k)
    by (unfold compute_kpi, getitem; rewrite B; simpl; eauto).
  destruct K as [k K]. exists k. eexists.
  split; [exact K|]. split; [exact (monthly_eq c d m D M)|].
  unfold compute_metrics. rewrite K, (monthly_eq c d m D M).
  unfold getitem. rewrite B. simpl.
  destruct (has_column "Medical Condition" c);
    destruct (has_column "Blood Type" c); reflexivity.
Qed.

Lemma pipeline_of_clean (df c : frame) (m : metrics) :
  clean df = Ok c -> compute_metrics c = Ok m -> pipeline df = Ok (c, m).
Proof.
  intros C M. unfold pipeline. rewrite C. cbn [bind]. rewrite M.
  reflexivity.
Qed.

Lemma pipeline_inv (df c : frame) (m : metrics) :
  pipeline df = Ok (c, m) -> clean df = Ok c /\ compute_metrics c = Ok m.
Proof.
  unfold pipeline. destruct (clean df) as [c'|e]; cbn [bind];
    [|discriminate].
  destruct (compute_metrics c') as [m'|e] eqn:M; cbn [bind];
    [|discriminate].
  intros E. apply Ok_inj in E. injection E as <- <-. auto.
Qed.

(** With both columns the metrics are computed. *)
Lemma pipeline_ok (df : frame) :
  has_column "Date of Admission" (strip_columns df) = true ->
  has_column "Billing Amount" (strip_columns df) = true ->
  exists c k r,
    pipeline df
    = Ok (c, mkMetrics k r
               (metric_files_for
                  (has_column "Medical Condition" (strip_columns df))
                  (has_column "Blood Type" (strip_columns df)))).
Proof.
  intros D B. destruct (clean_ok df D) as [c C].
  pose proof C as C'. rewrite clean_eq in C'.
  destruct (derived_dates _ _ C') as (d & Dc & _ & Mc & _).
  pose proof (has_column_clean df c "Billing Amount" C eq_refl) as Bc.
  rewrite B in Bc. unfold has_column in Bc.
  destruct (lookup "Billing Amount" c) as [b|] eqn:E; [|discriminate].
  destruct (compute_metrics_ok c b d _ E Dc Mc) as (k & r & _ & _ & M).
  rewrite (has_column_clean df c "Medical Condition" C eq_refl) in M.
  rewrite (has_column_clean df c "Blood Type" C eq_refl) in M.
  exists c, k, r. exact (pipeline_of_clean df c _ C M).
Qed.


End Needs.

(** ** The columns of the cleaned frame *)

(** The labels after [df[c] = ...]: a new label goes to the end. *)
Definition add_column (c : string) (l : list string) : list string :=
  if existsb (String.eqb c) l then l else l ++ [c].

Lemma has_column_columns (c : string) (df : frame) :
  has_column c df = existsb (String.eqb c) (columns df).
Proof.
  unfold has_column. induction df as [|[k s] df IH]; simpl; [reflexivity|].
  destruct (String.eqb c k); [reflexivity | exact IH].
Qed.

Lemma columns_setitem (c : string) (s : series) (df : frame) :
  columns (setitem c s df) = add_column c (columns df).
Proof.
  unfold add_column. induction df as [|[k t] df IH]; simpl; [reflexivity|].
  destruct (String.eqb c k) eqn:E; simpl.
  - apply String.eqb_eq in E. subst. reflexivity.
  - rewrite IH. destruct (existsb (String.eqb c) (columns df)); reflexivity.
Qed.

Lemma columns_update (c : string) (f : series -> series) (df : frame) :
  columns (update c f df) = columns df.
Proof.
  unfold update. destruct (lookup c df) as [s|] eqn:E; [|reflexivity].
  rewrite columns_setitem. unfold add_column.
  rewrite <- has_column_columns. unfold has_column. rewrite E. reflexivity.
Qed.

Lemma columns_filter_rows (mask : list bool) (df : frame) :
  columns (filter_rows mask df) = columns df.
Proof. unfold columns, filter_rows. rewrite map_map. reflexivity. Qed.

Lemma columns_strip_columns (df : frame) :
  columns (strip_columns df) = map Text.strip (columns df).
Proof. unfold columns, strip_columns. rewrite !map_map. reflexivity. Qed.

Section Columns.

Context {parser : DatetimeParser}.

Lemma columns_convert (df : frame) :
  columns (convert df) = map Text.strip (columns df).
Proof.
  unfold convert, clean_text_cols, normalize_gender, convert_age,
    convert_billing, convert_dates. simpl fold_left.
  rewrite !columns_update. apply columns_strip_columns.
Qed.

Lemma columns_fill_missing_values (df : frame) :
  columns (fill_missing_values df) = columns df.
Proof.
  unfold fill_missing_values. cbv zeta. rewrite !columns_update.
  reflexivity.
Qed.

(** The header of the cleaned table. *)
Definition clean_columns (input : list string) : list string :=
  let l := map Text.strip input in
  let l := if existsb (String.eqb "Age") l
           then add_column "Age Group" l else l in
  add_column "Month Name"
    (add_column "Admission Month" (add_column "Admission Year" l)).

(** X2.  Cleaning keeps the columns of the input in their order, with
    their names stripped, and puts the derived columns that are new at the
    end: "Age Group" when there is an "Age" column, then "Admission Year",
    "Admission Month" and "Month Name"; a derived column the input already
    has is overwritten where it stands. *)
Theorem columns_of_clean (df c : frame) :
  clean df = Ok c -> columns c = clean_columns (columns df).
Proof.
  intros C. rewrite clean_eq in C.
  set (x := fill_missing_values (drop_duplicates (convert df))) in *.
  assert (X : columns x = map Text.strip (columns df)).
  { unfold x. rewrite columns_fill_missing_values. unfold drop_duplicates.
    rewrite columns_filter_rows. apply columns_convert. }
  destruct (lookup "Date of Admission" x) as [d|] eqn:D.
  - rewrite (derived_cols_ok x d D) in C. apply Ok_inj in C. subst c.
    rewrite !columns_setitem. unfold clean_columns. cbv zeta.
    rewrite <- X, <- has_column_columns.
    unfold with_age_group, has_column.
    destruct (lookup "Age" x); [rewrite columns_setitem|]; reflexivity.
  - rewrite (derived_cols_raises x D) in C. discriminate.
Qed.

End Columns.

Lemma columns_of_clean_witness :
  exists c,
    clean sample = Ok c
    /\ columns c = clean_columns (columns sample)
    /\ columns c
       = ["Name"; "Age"; "Gender"; "Date of Admission"; "Billing Amount";
          "Age Group"; "Admission Year"; "Admission Month"; "Month Name"].
Proof.
  eexists. split; [exact clean_sample|]. split; [|reflexivity].
  exact (@columns_of_clean iso_dates sample _ clean_sample).
Defined.

(** ** Text columns *)

Definition is_text (v : value) : Prop := exists t, v = Str t.

Lemma text_cell_text (v : value) : is_text (text_cell v).
Proof. unfold text_cell, as_str, str_strip, is_text. eauto. Qed.

Lemma gender_cell_text (v : value) : is_text (gender_cell v).
Proof. apply gender_cell_str. Qed.

Lemma Forall_select {A : Type} (P : A -> Prop) (mask : list bool)
      (l : list A) :
  Forall P l -> Forall P (select mask l).
Proof.
  intros F. apply Forall_forall. intros x X.
  rewrite Forall_forall in F. apply F. eapply select_In, X.
Qed.

Lemma fillna_text (x : value) (s : series) :
  Forall is_text s -> fillna x s = s /\ Forall is_text (fillna x s).
Proof.
  intros F. assert (E : fillna x s = s).
  { apply fillna_without_na. induction F as [|v s [t ->] F IH]; simpl; auto. }
  rewrite E. auto.
Qed.

Section TextColumns.

Context {parser : DatetimeParser}.

(** The cell function of lines 45-52 for a text column. *)
Definition cell_of (k : string) : value -> value :=
  if String.eqb k "Gender" then gender_cell else text_cell.

Lemma cell_of_text (k : string) (v : value) : is_text (cell_of k v).
Proof.
  unfold cell_of. destruct (String.eqb k "Gender");
    [apply gender_cell_text | apply text_cell_text].
Qed.

Lemma lookup_convert_text (k : string) (df : frame) :
  In k ("Gender" :: text_cols) ->
  lookup k (convert df)
  = option_map (map (cell_of k)) (lookup k (strip_columns df)).
Proof.
  intros I. unfold convert, clean_text_cols, normalize_gender, convert_age,
    convert_billing, convert_dates. simpl fold_left.
  simpl in I.
  repeat (destruct I as [<-|I]; [|]); try destruct I; through_updates;
    rewrite ?option_map_map; apply option_map_ext; intros s;
    rewrite ?map_map; reflexivity.
Qed.

Lemma lookup_fill_text (k : string) (y : frame) (s : series) :
  In k ("Gender" :: text_cols) ->
  lookup k y = Some s -> Forall is_text s ->
  lookup k (fill_missing_values y) = Some s.
Proof.
  intros I E F. rewrite lookup_fill_missing_values, E.
  assert (N : String.eqb k "Billing Amount" = false).
  { simpl in I. repeat (destruct I as [<-|I]; [reflexivity|]). destruct I. }
  rewrite N. simpl.
  destruct (fillna_text (Str "Unknown") s F) as [-> _].
  destruct (_ || _); reflexivity.
Qed.

(** X3.  After cleaning, no cell of Gender, Name, Blood Type, Medical
    Condition, Doctor, Hospital or Insurance Provider is missing: the column
    holds the converted cells of the rows that were kept, each a string
    ([astype(str)] has turned a missing cell into text), and the [fillna] of
    lines 59-64 changes nothing in it. *)
Theorem text_columns_are_text (df c : frame) (k : string) (s0 : series) :
  clean df = Ok c ->
  In k ("Gender" :: text_cols) ->
  lookup k (strip_columns df) = Some s0 ->
  lookup k c
  = Some (select (map negb (duplicated (convert df))) (map (cell_of k) s0))
  /\ (forall s, lookup k c = Some s -> Forall is_text s)
  /\ text_cell NA = Str "nan".
Proof.
  intros C I E.
  assert (N : existsb (String.eqb k)
                ["Age Group"; "Admission Year"; "Admission Month";
                 "Month Name"] = false).
  { simpl in I. repeat (destruct I as [<-|I]; [reflexivity|]). destruct I. }
  assert (F : Forall is_text
                (select (map negb (duplicated (convert df)))
                        (map (cell_of k) s0))).
  { apply Forall_select, Forall_forall. intros v V.
    apply in_map_iff in V. destruct V as (u & <- & _). apply cell_of_text. }
  assert (L : lookup k c
              = Some (select (map negb (duplicated (convert df)))
                             (map (cell_of k) s0))).
  { rewrite (lookup_clean df c k C N).
    apply (lookup_fill_text k _ _ I); [|exact F].
    unfold drop_duplicates.
    rewrite lookup_filter_rows, (lookup_convert_text k df I), E.
    reflexivity. }
  split; [exact L|]. split; [|reflexivity].
  intros s S. rewrite L in S. injection S as <-. exact F.
Qed.

End TextColumns.

Lemma text_columns_are_text_witness :
  exists c s,
    clean sample = Ok c
    /\ In "Name" ("Gender" :: text_cols)
    /\ lookup "Name" (strip_columns sample)
       = Some [Str " Ann "; Str "Bob"; Str "Bob"; NA]
    /\ lookup "Name" c = Some s
    /\ s = [Str "Ann"; Str "Bob"; Str "nan"]
    /\ Forall is_text s.
Proof.
  assert (I : In "Name" ("Gender" :: text_cols)) by (simpl; tauto).
  destruct (@text_columns_are_text iso_dates sample _ "Name"
              [Str " Ann "; Str "Bob"; Str "Bob"; NA]
              clean_sample I eq_refl) as (L & F & _).
  eexists. eexists. split; [exact clean_sample|].
  split; [exact I|]. split; [reflexivity|].
  split; [reflexivity|]. split; [reflexivity|].
  apply F. reflexivity.
Defined.

(** ** Deduplication *)

Lemma duplicated_from_mem (l seen seen' : list row) :
  (forall r, mem r seen = mem r seen') ->
  duplicated_from seen l = duplicated_from seen' l.
Proof.
  revert seen seen'. induction l as [|r l IH]; intros seen seen' M; simpl;
    [reflexivity|].
  fold (mem r seen). fold (mem r seen'). rewrite (M r). f_equal.
  apply IH. intros x. unfold mem in *. simpl. rewrite (M x). reflexivity.
Qed.

Lemma duplicated_dedup_from (rs seen : list row) :
  existsb (fun b : bool => b) (duplicated_from seen (dedup_from seen rs))
  = false.
Proof.
  revert seen. induction rs as [|r rs IH]; intros seen; [reflexivity|].
  rewrite dedup_from_cons. destruct (mem r seen) eqn:M.
  - rewrite (duplicated_from_mem _ seen (r :: seen)); [apply IH|].
    intros x. unfold mem in *. simpl.
    destruct (row_eqb x r) eqn:E; [|reflexivity].
    fold (mem x seen). fold (mem r seen) in M.
    rewrite (mem_eqb x r seen E). exact M.
  - simpl. fold (mem r seen). rewrite M. simpl. apply IH.
Qed.

Lemma length_select_le {A : Type} (mask : list bool) (l : list A) :
  List.length (select mask l) <= List.length l.
Proof.
  revert l. induction mask as [|b mask IH]; intros [|x l]; simpl; try lia.
  specialize (IH l). destruct b; simpl; lia.
Qed.

(** X4.  On a rectangular frame [drop_duplicates] leaves no two equal rows,
    dropping again changes nothing, and no row is added. *)
Theorem drop_duplicates_distinct (df : frame) :
  rect df ->
  has_duplicates (drop_duplicates df) = false
  /\ drop_duplicates (drop_duplicates df) = drop_duplicates df
  /\ List.length (df_rows (drop_duplicates df))
     <= List.length (df_rows df).
Proof.
  intros R.
  assert (H : has_duplicates (drop_duplicates df) = false).
  { unfold has_duplicates, duplicated.
    rewrite (df_rows_drop_duplicates df R). apply duplicated_dedup_from. }
  split; [exact H|]. split.
  - apply drop_duplicates_without; [apply rect_drop_duplicates, R | exact H].
  - rewrite (df_rows_drop_duplicates df R). apply length_select_le.
Qed.

Lemma drop_duplicates_distinct_witness :
  rect (convert sample)
  /\ has_duplicates (convert sample) = true
  /\ has_duplicates (drop_duplicates (convert sample)) = false
  /\ List.length (df_rows (convert sample)) = 4
  /\ List.length (df_rows (drop_duplicates (convert sample))) = 3.
Proof.
  assert (R : rect (convert sample)) by (repeat constructor).
  destruct (drop_duplicates_distinct (convert sample) R) as (H & _ & _).
  split; [exact R|]. split; [vm_compute; reflexivity|].
  split; [exact H|]. split; vm_compute; reflexivity.
Defined.

(** ** Totals of the metric tables *)

Definition total (g : list (string * nat)) : nat :=
  fold_right (fun e n => snd e + n) 0 g.

Lemma total_bump (k : string) (g : list (string * nat)) :
  total (bump k g) = S (total g).
Proof.
  induction g as [|[h n] g IH]; simpl; [reflexivity|].
  destruct (String.compare k h); simpl; rewrite ?IH; lia.
Qed.

Lemma total_group_sizes (keys : list string) :
  total (group_sizes keys) = List.length keys.
Proof.
  unfold group_sizes.
  assert (G : forall g, total (fold_left (fun g k => bump k g) keys g)
                        = total g + List.length keys).
  { induction keys as [|k keys IH]; intros g; simpl; [lia|].
    rewrite IH, total_bump. lia. }
  rewrite G. reflexivity.
Qed.

Lemma group_keys_months (mask : list bool) (d : series) :
  List.length mask = List.length d ->
  List.length (group_keys (select mask (map dt_month d)))
  = count_true mask.
Proof.
  unfold group_keys, count_true. revert d.
  induction mask as [|b mask IH]; intros [|v d]; simpl; try discriminate;
    auto.
  intros L. injection L as L. destruct b; simpl; [|auto].
  rewrite length_app, (IH d L). destruct v; reflexivity.
Qed.

Lemma count_true_notna (d : series) :
  count_true (map notna d) = List.length (filter notna d).
Proof.
  unfold count_true. induction d as [|v d IH]; simpl; [reflexivity|].
  destruct (notna v); simpl; rewrite IH; reflexivity.
Qed.

(** X5.  The counts of the admissions-by-month table add up to the number
    of rows of the cleaned table that have an admission date: every such
    row is counted once. *)
Theorem admissions_total `{DatetimeParser} (df c : frame) :
  clean df = Ok c ->
  exists d r,
    lookup "Date of Admission" c = Some d
    /\ monthly c = Ok r
    /\ total r = List.length (filter notna d).
Proof.
  intros C. rewrite clean_eq in C.
  destruct (derived_dates _ _ C) as (d & D & _ & M & _).
  exists d. eexists. split; [exact D|].
  split; [exact (monthly_eq c d _ D M)|].
  destruct (group_sizes_spec
              (group_keys (select (map notna d) (map dt_month d))))
    as [O _].
  rewrite (sort_values_ordered _ O), total_group_sizes.
  rewrite group_keys_months by apply length_map.
  apply count_true_notna.
Qed.

Lemma admissions_total_witness :
  clean null_admission = Ok null_admission_clean
  /\ exists d r,
    lookup "Date of Admission" null_admission_clean = Some d
    /\ monthly null_admission_clean = Ok r
    /\ total r = List.length (filter notna d).
Proof.
  assert (C : clean null_admission = Ok null_admission_clean)
    by (vm_compute; reflexivity).
  split; [exact C|].
  exact (@admissions_total iso_dates null_admission null_admission_clean C).
Defined.

(** ** The KPI row *)

Lemma numbers_all (s : series) :
  Forall is_number s -> List.length (numbers s) = List.length s.
Proof.
  unfold numbers. induction 1 as [|v s [q ->] F IH]; simpl; auto.
Qed.

Lemma kpi_of_pipeline `{DatetimeParser} (df c : frame) (m : metrics) :
  pipeline df = Ok (c, m) ->
  exists b,
    lookup "Billing Amount" c = Some b
    /\ kpis m
       = mkKpi (nrows c) (Qsum (numbers b))
           match numbers b with
           | [] => None
           | _ => Some (Qsum (numbers b)
                        / inject_Z (Z.of_nat (List.length (numbers b))))%Q
           end.
Proof.
  intros P. destruct (pipeline_inv df c m P) as [_ M].
  unfold compute_metrics, compute_kpi, getitem in M.
  destruct (lookup "Billing Amount" c) as [b|] eqn:B; cbn [bind] in M;
    [|discriminate].
  exists b. split; [reflexivity|].
  destruct (monthly c) as [r|e]; cbn [bind] in M; [|discriminate].
  destruct (has_column "Medical Condition" c);
    destruct (has_column "Blood Type" c); cbn [bind] in M;
    apply Ok_inj in M; rewrite <- M; reflexivity.
Qed.



(** ** The run of the charts *)

Module Render.

Import Pyplot.

(** The file a rendering call writes. *)
Definition file_of (body : list call) : string * nat * figure :=
  (Charts.path_of body, 150, rev (filter Charts.draws body)).

(** A rendering call that raises has written no file, unless it is the
    closing of the figure that raises. *)
Lemma run_chart_raised (raises : call -> bool) (body : list call)
      (st st' : state) (c : call) :
  Charts.chart_body body -> run raises body st = (st', Raised c) ->
  files st' = files st
  \/ (c = Close /\ files st' = file_of body :: files st).
Proof.
  intros B R. destruct B as [xy t p r | t p | t p];
    [destruct xy, r|..]; cbn in R;
    repeat match type of R with
           | context [if raises ?k then _ else _] =>
               destruct (raises k); cbv iota in R;
               [injection R as <- <-;
                (left; reflexivity) || (right; split; reflexivity)|]
           end; discriminate.
Qed.

Lemma render_all_files (raises : call -> bool) (cs : list (list call))
      (st st' : state) (o : outcome) :
  Forall Charts.chart_body cs ->
  render_all raises cs st = (st', o) ->
  exists n,
    n <= List.length cs
    /\ files st' = rev (map file_of (firstn n cs)) ++ files st
    /\ (o = Done -> n = List.length cs /\ figures st' = figures st).
Proof.
  intros F. revert st. induction F as [|body cs B F IH]; intros st R.
  - simpl in R. injection R as <- <-. exists 0. simpl. auto.
  - simpl in R. destruct (run raises body st) as [s1 [|c]] eqn:E.
    + destruct (Charts.run_chart_done raises body st s1 B E) as [G W].
      destruct (IH s1 R) as (n & N & X & D).
      exists (S n). split; [simpl; lia|]. split.
      * rewrite X, W. simpl. rewrite <- app_assoc. reflexivity.
      * intros Z. destruct (D Z) as [-> ->]. auto.
    + injection R as <- <-.
      destruct (run_chart_raised raises body st s1 c B E) as [W|[_ W]].
      * exists 0. split; [simpl; lia|]. split; [exact W | discriminate].
      * exists 1. split; [simpl; lia|]. split; [exact W | discriminate].
Qed.

Lemma render_all_returns (cs : list (list call)) (st : state) :
  Forall Charts.chart_body cs ->
  exists st', render_all (fun _ => false) cs st = (st', Done).
Proof.
  intros F. revert st. induction F as [|body cs B F IH]; intros st; simpl.
  - eauto.
  - destruct (Charts.run_chart_returns body st B) as [s1 E]. rewrite E.
    apply IH.
Qed.

End Render.

Lemma length_charts (df : frame) (months : list (string * nat)) :
  List.length (charts df months) <= 8.
Proof.
  unfold charts. rewrite !length_app.
  destruct months; destruct (has_column "Medical Condition" df);
    destruct (has_column "Gender" df); destruct (has_column "Age Group" df);
    destruct (has_column "Insurance Provider" df);
    destruct (has_column "Blood Type" df); simpl; lia.
Qed.

(** X7.  The charts of a run are written in the order of the script, one
    file per chart at 150 dpi, each holding its own drawing; an exception
    ends the run, so the files written are those of the first charts of
    the list and no later chart is written after a failure; when the run
    ends normally every chart has been written and the open figures are
    those found at the start; and when nothing raises the run ends
    normally.  There are at most eight charts. *)
Theorem charts_written (raises : Pyplot.call -> bool) (df : frame)
        (months : list (string * nat)) (st : Pyplot.state) :
  (forall st' o,
      render_all raises (charts df months) st = (st', o) ->
      exists n,
        n <= List.length (charts df months)
        /\ Pyplot.files st'
           = rev (map Render.file_of (firstn n (charts df months)))
             ++ Pyplot.files st
        /\ (o = Pyplot.Done ->
            n = List.length (charts df months)
            /\ Pyplot.figures st' = Pyplot.figures st))
  /\ (exists st',
         render_all (fun _ => false) (charts df months) st
         = (st', Pyplot.Done))
  /\ List.length (charts df months) <= 8.
Proof.
  split; [|split].
  - intros st' o. apply Render.render_all_files, Charts.charts_bodies.
  - apply Render.render_all_returns, Charts.charts_bodies.
  - apply length_charts.
Qed.

(** ** The imputed amount *)

Lemma In_insert_q (x y : Q) (l : list Q) :
  In y (insert_q x l) <-> y = x \/ In y l.
Proof.
  induction l as [|z l IH]; simpl; [intuition|].
  destruct (Qle_bool x z); simpl; rewrite ?IH; intuition.
Qed.

Lemma In_sort_q (y : Q) (l : list Q) : In y (sort_q l) <-> In y l.
Proof.
  induction l as [|x l IH]; simpl; [tauto|].
  rewrite In_insert_q, IH. intuition.
Qed.

Lemma In_numbers (q : Q) (s : series) : In q (numbers s) <-> In (Num q) s.
Proof.
  unfold numbers. rewrite in_flat_map. split.
  - intros (v & V & I). destruct v; simpl in I; try tauto.
    destruct I as [<-|[]]. exact V.
  - intros I. exists (Num q). split; [exact I | left; reflexivity].
Qed.

Lemma Qmean_between (x y : Q) :
  exists a b, (a = x \/ a = y) /\ (b = x \/ b = y)
              /\ (a <= Qred ((x + y) / 2) <= b)%Q.
Proof.
  assert (E : (Qred ((x + y) / 2) == (x + y) * (1 # 2))%Q)
    by (rewrite Qred_correct; field).
  destruct (Qlt_le_dec x y) as [L|L].
  - exists x, y. split; [auto|]. split; [auto|]. rewrite E. split; lra.
  - exists y, x. split; [auto|]. split; [auto|]. rewrite E. split; lra.
Qed.

(** The median lies between two numbers of the column. *)
Lemma median_between (s : series) (m : Q) :
  median s = Num m ->
  exists a b, In (Num a) s /\ In (Num b) s /\ (a <= m <= b)%Q.
Proof.
  unfold median. set (xs := sort_q (numbers s)).
  assert (I : forall i, i < List.length xs -> In (Num (nth i xs 0%Q)) s).
  { intros i L. apply In_numbers, In_sort_q. apply nth_In, L. }
  destruct (List.length xs) as [|n] eqn:N; [discriminate|].
  assert (H : S n / 2 < S n) by (apply Nat.div_lt; lia).
  destruct (Nat.odd (S n)); intros E; injection E as <-.
  - exists (nth (S n / 2) xs 0%Q), (nth (S n / 2) xs 0%Q).
    repeat split; try apply I; try exact H; apply Qle_refl.
  - destruct (Qmean_between (nth (S n / 2 - 1) xs 0%Q)
                            (nth (S n / 2) xs 0%Q))
      as (a & b & A & B & R).
    exists a, b. repeat split; try apply R.
    + destruct A as [->| ->]; apply I; lia.
    + destruct B as [->| ->]; apply I; lia.
Qed.

Lemma Some_inj {A : Type} (a b : A) : Some a = Some b -> a = b.
Proof. intros H. injection H. auto. Qed.

Lemma In_fillna (x v : value) (s : series) :
  In v (fillna x s) -> In v s \/ (existsb isna s = true /\ x = v).
Proof.
  unfold fillna. induction s as [|u s IH]; simpl; [tauto|].
  intros [E|I].
  - destruct (isna u); [right; split; auto | left; left; exact E].
  - destruct (IH I) as [J|[J K]]; [left; right; exact J|].
    right. split; [rewrite J; apply orb_true_r | exact K].
Qed.

(** X8.  Every Billing Amount of the cleaned table is either an amount that
    was parsed, or lies between two parsed amounts of the rows that were
    kept: the imputation never gives an amount outside the range of the
    amounts of the table. *)
Theorem imputed_amount_in_range `{DatetimeParser} (df c : frame)
        (s0 s : series) (m : Q) :
  clean df = Ok c ->
  lookup "Billing Amount" (strip_columns df) = Some s0 ->
  lookup "Billing Amount" c = Some s ->
  In (Num m) s ->
  exists a b,
    In (Num a) (billing_before_fill df s0)
    /\ In (Num b) (billing_before_fill df s0)
    /\ (a <= m <= b)%Q.
Proof.
  intros C E L I.
  assert (S : s = fillna (median (billing_before_fill df s0))
                         (billing_before_fill df s0)).
  { apply Some_inj. rewrite <- L. apply lookup_billing_clean; assumption. }
  rewrite S in I. clear S L.
  apply In_fillna in I. destruct I as [I|[_ I]].
  - exists m, m.
    split; [exact I|]. split; [exact I|]. split; apply Qle_refl.
  - apply median_between, I.
Qed.

Lemma imputed_amount_in_range_witness :
  clean billing_example = Ok billing_example_clean
  /\ exists a b,
      In (Num a) (billing_before_fill billing_example
                    [Str "$1,234.56"; Str "abc"; Str "10"])
      /\ In (Num b) (billing_before_fill billing_example
                       [Str "$1,234.56"; Str "abc"; Str "10"])
      /\ (a <= 15557 # 25 <= b)%Q.
Proof.
  assert (C : clean billing_example = Ok billing_example_clean)
    by (vm_compute; reflexivity).
  split; [exact C|].
  apply (@imputed_amount_in_range iso_dates billing_example
           billing_example_clean [Str "$1,234.56"; Str "abc"; Str "10"]
           [Num (30864 # 25); Num (15557 # 25); Num 10]%Q (15557 # 25)%Q C).
  - reflexivity.
  - reflexivity.
  - simpl. tauto.
Defined.

(** ** Normalising twice *)

Module Twice.

Import Text.

Ltac by_cases c := destruct c as [[] [] [] [] [] [] [] []]; reflexivity.

Lemma upper_upper (c : ascii) : upper (upper c) = upper c.
Proof. by_cases c. Qed.

Lemma lower_lower (c : ascii) : lower (lower c) = lower c.
Proof. by_cases c. Qed.

Lemma is_cased_upper (c : ascii) : is_cased (upper c) = is_cased c.
Proof. by_cases c. Qed.

Lemma is_cased_lower (c : ascii) : is_cased (lower c) = is_cased c.
Proof. by_cases c. Qed.

Lemma is_space_upper (c : ascii) : is_space (upper c) = is_space c.
Proof. by_cases c. Qed.

Lemma is_space_lower (c : ascii) : is_space (lower c) = is_space c.
Proof. by_cases c. Qed.

Lemma title_from_twice (b : bool) (s : string) :
  title_from b (title_from b s) = title_from b s.
Proof.
  revert b. induction s as [|c s IH]; intros b; simpl; [reflexivity|].
  destruct b.
  - rewrite lower_lower, is_cased_lower, IH. reflexivity.
  - rewrite upper_upper, is_cased_upper, IH. reflexivity.
Qed.

(** Two strings with white space at the same places. *)
Inductive same_spaces : string -> string -> Prop :=
| same_nil : same_spaces EmptyString EmptyString
| same_cons c d s t :
    is_space c = is_space d -> same_spaces s t ->
    same_spaces (String c s) (String d t).

Lemma same_spaces_title (b : bool) (s : string) :
  same_spaces s (title_from b s).
Proof.
  revert b. induction s as [|c s IH]; intros b; simpl; constructor; auto.
  destruct b; [rewrite is_space_lower | rewrite is_space_upper]; reflexivity.
Qed.

Lemma same_spaces_lstrip (s t : string) :
  same_spaces s t -> lstrip s = s -> lstrip t = t.
Proof.
  intros S. destruct S as [|c d s t E S]; simpl; [reflexivity|].
  rewrite <- E. destruct (is_space c) eqn:C; [|reflexivity].
  intros H. exfalso.
  assert (L : forall u, String.length (lstrip u) <= String.length u).
  { induction u as [|x u IH]; simpl; [lia|].
    destruct (is_space x); simpl; lia. }
  specialize (L s). rewrite H in L. simpl in L. lia.
Qed.

Lemma same_spaces_rstrip (s t : string) :
  same_spaces s t -> same_spaces (rstrip s) (rstrip t).
Proof.
  induction 1 as [|c d s t E S IH]; simpl; [constructor|].
  destruct IH as [|c' d' s' t' E' S'].
  - rewrite <- E. destruct (is_space c) eqn:C; repeat constructor.
    rewrite C. exact E.
  - constructor; [exact E|]. constructor; assumption.
Qed.

Lemma rstrip_prefix (t : string) : exists w, t = (rstrip t ++ w)%string.
Proof.
  induction t as [|c t [w IH]]; simpl; [exists EmptyString; reflexivity|].
  destruct (rstrip t) as [|x r] eqn:R.
  - destruct (is_space c).
    + exists (String c t). reflexivity.
    + exists t. reflexivity.
  - exists w. simpl in *. f_equal. exact IH.
Qed.

Lemma same_spaces_length (s t : string) :
  same_spaces s t -> String.length s = String.length t.
Proof. induction 1; simpl; auto. Qed.

Lemma length_append (s t : string) :
  String.length (s ++ t)%string = String.length s + String.length t.
Proof. induction s as [|c s IH]; simpl; auto. Qed.

Lemma same_spaces_rstrip_fixed (s t : string) :
  same_spaces s t -> rstrip s = s -> rstrip t = t.
Proof.
  intros S H. pose proof (same_spaces_rstrip s t S) as R. rewrite H in R.
  destruct (rstrip_prefix t) as [w W].
  assert (L : String.length w = 0).
  { apply (f_equal String.length) in W. rewrite length_append in W.
    rewrite <- (same_spaces_length _ _ R), (same_spaces_length _ _ S) in W.
    lia. }
  destruct w; [|discriminate].
  rewrite W at 2. clear. induction (rstrip t); simpl; congruence.
Qed.

Lemma lstrip_twice (s : string) : lstrip (lstrip s) = lstrip s.
Proof.
  induction s as [|c s IH]; simpl; [reflexivity|].
  destruct (is_space c) eqn:E; [exact IH|]. simpl. rewrite E. reflexivity.
Qed.

Lemma rstrip_twice (s : string) : rstrip (rstrip s) = rstrip s.
Proof.
  induction s as [|c s IH]; simpl; [reflexivity|].
  destruct (rstrip s) as [|x r] eqn:R.
  - destruct (is_space c) eqn:E; simpl; [reflexivity|].
    rewrite E. reflexivity.
  - simpl in *. rewrite IH. reflexivity.
Qed.

Lemma lstrip_rstrip (s : string) :
  lstrip s = s -> lstrip (rstrip s) = rstrip s.
Proof.
  destruct s as [|c s]; simpl; [reflexivity|].
  destruct (is_space c) eqn:E.
  - intros H. exfalso.
    assert (L : forall u, String.length (lstrip u) <= String.length u).
    { induction u as [|x u IH]; simpl; [lia|].
      destruct (is_space x); simpl; lia. }
    specialize (L s). rewrite H in L. simpl in L. lia.
  - intros _. destruct (rstrip s); simpl; rewrite E; reflexivity.
Qed.

(** A stripped string: stripping leaves it as it is. *)
Lemma strip_parts (s : string) :
  lstrip (strip s) = strip s /\ rstrip (strip s) = strip s.
Proof.
  unfold strip. split.
  - apply lstrip_rstrip, lstrip_twice.
  - apply rstrip_twice.
Qed.

Lemma strip_twice (s : string) : strip (strip s) = strip s.
Proof.
  destruct (strip_parts s) as [L R]. unfold strip at 1.
  rewrite L. exact R.
Qed.

Lemma strip_title_strip (s : string) :
  strip (title (strip s)) = title (strip s).
Proof.
  destruct (strip_parts s) as [L R].
  pose proof (same_spaces_title false (strip s)) as S.
  unfold strip at 1. fold (title (strip s)) in S.
  rewrite (same_spaces_lstrip _ _ S L).
  apply (same_spaces_rstrip_fixed _ _ S R).
Qed.

End Twice.


(** ** The Age Group column *)

Lemma age_group_range (v : value) :
  age_group v = NA \/ exists l, In l labels /\ age_group v = Str l.
Proof.
  destruct v as [|s|q|d]; try (left; reflexivity).
  rewrite age_group_bucket.
  assert (B : bucket q <= 5).
  { unfold bucket, searchsorted_left, bins.
    destruct (Qeq_bool q 0); [lia|].
    etransitivity; [apply filter_length_le | simpl; lia]. }
  destruct (bucket q) as [|[|[|[|[|[|n]]]]]]; try lia;
    try (left; reflexivity); right; eexists;
    (split; [|reflexivity]); simpl; tauto.
Qed.

(** X10.  The Age Group column of the cleaned table is computed from the
    Age text of the rows that were kept: the Age is read as a number
    (missing when it is not one) and cut into the buckets, so every cell is
    one of the four labels or missing. *)
Theorem age_group_column `{DatetimeParser} (df c : frame) (a0 : series) :
  clean df = Ok c ->
  lookup "Age" (strip_columns df) = Some a0 ->
  lookup "Age Group" c
  = Some (select (map negb (duplicated (convert df)))
                 (map (fun v => age_group (to_numeric v)) a0))
  /\ (forall g v, lookup "Age Group" c = Some g -> In v g ->
                  v = NA \/ exists l, In l labels /\ v = Str l).
Proof.
  intros C E.
  assert (A : lookup "Age" (fill_missing_values
                              (drop_duplicates (convert df)))
              = Some (select (map negb (duplicated (convert df)))
                             (map to_numeric a0))).
  { rewrite lookup_fill_missing_values. eval_labels.
    cbv beta iota delta [orb]. unfold drop_duplicates.
    rewrite lookup_filter_rows, lookup_convert_age, E. reflexivity. }
  pose proof C as C'. rewrite clean_eq in C'.
  destruct (derived_age_group _ _ C') as [_ G].
  assert (L : lookup "Age Group" c
              = Some (select (map negb (duplicated (convert df)))
                             (map (fun v => age_group (to_numeric v)) a0))).
  { rewrite (G _ A). f_equal. clear.
    generalize (map negb (duplicated (convert df))). intros mask.
    revert a0. induction mask as [|b mask IH]; intros [|v a0]; simpl;
      try reflexivity.
    destruct b; simpl; rewrite IH; reflexivity. }
  split; [exact L|].
  intros g v S I. rewrite L in S. apply Some_inj in S. subst g.
  apply select_In in I. apply in_map_iff in I.
  destruct I as (u & <- & _). apply age_group_range.
Qed.

Lemma age_group_column_witness :
  exists c,
    clean sample = Ok c
    /\ lookup "Age" (strip_columns sample)
       = Some [Str "17"; Str "41"; Str "41"; Str "x"]
    /\ lookup "Age Group" c
       = Some [Str "Child (0-18)"; Str "Middle (41-60)"; NA].
Proof.
  eexists. split; [exact clean_sample|]. split; [reflexivity|].
  destruct (@age_group_column iso_dates sample _
              [Str "17"; Str "41"; Str "41"; Str "x"] clean_sample eq_refl)
    as (L & _).
  rewrite L. vm_compute. reflexivity.
Defined.

(** ** Month keys sort in calendar order *)

Module Calendar.

(** The text of a month period, [YYYY-MM]. *)
Definition month_text (d : date) : string :=
  Text.pad 4 (Z.to_nat (year d)) ++ "-" ++ Text.pad 2 (month d).

(** Calendar comparison of the months of two dates. *)
Definition compare_months (d1 d2 : date) : comparison :=
  match (year d1 ?= year d2)%Z with
  | Eq => Nat.compare (month d1) (month d2)
  | c => c
  end.

(** The zero-padded texts of the numbers below [n]. *)
Definition texts (width n : nat) : list string :=
  map (Text.pad width) (seq 0 n).

Fixpoint increasing (l : list string) : bool :=
  match l with
  | [] => true
  | a :: l' =>
      match l' with
      | [] => true
      | b :: _ => String.ltb a b && increasing l'
      end
  end.

Lemma increasing_step (l : list string) (i : nat) :
  increasing l = true -> S i < List.length l ->
  String.compare (nth i l "") (nth (S i) l "") = Lt.
Proof.
  revert i. induction l as [|a l IH]; intros i I L; [simpl in L; lia|].
  destruct l as [|b l]; [simpl in L; lia|].
  change (String.ltb a b && increasing (b :: l) = true) in I.
  apply andb_true_iff in I. destruct I as [A I].
  destruct i as [|i].
  - apply ltb_compare. exact A.
  - change (String.compare (nth i (b :: l) "") (nth (S i) (b :: l) "") = Lt).
    apply IH; [exact I | simpl in *; lia].
Qed.

Lemma increasing_nth (l : list string) (i k : nat) :
  increasing l = true -> i + S k < List.length l ->
  String.compare (nth i l "") (nth (i + S k) l "") = Lt.
Proof.
  intros I. induction k as [|k IH]; intros L.
  - rewrite Nat.add_1_r. apply increasing_step; [exact I | lia].
  - apply string_compare_lt_trans with (nth (i + S k) l "").
    + apply IH. lia.
    + replace (i + S (S k)) with (S (i + S k)) by lia.
      apply increasing_step; [exact I | lia].
Qed.

Lemma nth_texts (w n a : nat) :
  a < n -> nth a (texts w n) "" = Text.pad w a.
Proof.
  intros L. unfold texts.
  rewrite (nth_indep _ "" (Text.pad w 0))
    by (rewrite length_map, length_seq; exact L).
  rewrite map_nth, seq_nth by exact L. reflexivity.
Qed.

Lemma length_texts (w n : nat) : List.length (texts w n) = n.
Proof. unfold texts. rewrite length_map, length_seq. reflexivity. Qed.

Lemma pad_lt (w n a b : nat) :
  increasing (texts w n) = true -> a < b -> b < n ->
  String.compare (Text.pad w a) (Text.pad w b) = Lt.
Proof.
  intros I A B.
  rewrite <- (nth_texts w n a), <- (nth_texts w n b) by lia.
  replace b with (a + S (b - a - 1)) by lia.
  apply increasing_nth; [exact I | rewrite length_texts; lia].
Qed.

Lemma pad_compare (w n a b : nat) :
  increasing (texts w n) = true -> a < n -> b < n ->
  String.compare (Text.pad w a) (Text.pad w b) = Nat.compare a b.
Proof.
  intros I A B. destruct (Nat.compare_spec a b) as [E|L|L].
  - subst b. apply string_compare_refl.
  - apply (pad_lt w n); assumption.
  - rewrite String.compare_antisym, (pad_lt w n b a) by assumption.
    reflexivity.
Qed.

Lemma pad_length (w n a : nat) :
  forallb (fun s => Nat.eqb (String.length s) w) (texts w n) = true ->
  a < n -> String.length (Text.pad w a) = w.
Proof.
  intros F L. rewrite forallb_forall in F.
  apply Nat.eqb_eq, F. unfold texts. apply in_map, in_seq. lia.
Qed.

Lemma compare_append (a b s t : string) :
  String.length a = String.length b ->
  String.compare (a ++ s) (b ++ t)
  = match String.compare a b with
    | Eq => String.compare s t
    | c => c
    end.
Proof.
  revert b. induction a as [|x a IH]; intros [|y b] L; simpl in L;
    try discriminate; [reflexivity|].
  simpl. destruct (Ascii.compare x y); try reflexivity.
  apply IH. lia.
Qed.

Lemma years_increasing : increasing (texts 4 (Z.to_nat 2263)) = true.
Proof. vm_compute. reflexivity. Qed.

Lemma years_width :
  forallb (fun s => Nat.eqb (String.length s) 4) (texts 4 (Z.to_nat 2263))
  = true.
Proof. vm_compute. reflexivity. Qed.

Lemma months_increasing : increasing (texts 2 13) = true.
Proof. vm_compute. reflexivity. Qed.

End Calendar.

(** X11.  The Admission Month of a date is the text [YYYY-MM], and comparing
    two such texts as strings, which is how the monthly table is sorted,
    compares the months in calendar order, for the years a pandas timestamp
    can have (1677 to 2262) and months 1 to 12. *)
Theorem month_keys_in_calendar_order (d1 d2 : date) :
  (1677 <= year d1 <= 2262)%Z -> (1677 <= year d2 <= 2262)%Z ->
  1 <= month d1 <= 12 -> 1 <= month d2 <= 12 ->
  dt_month (Date d1) = Str (Calendar.month_text d1)
  /\ String.compare (Calendar.month_text d1) (Calendar.month_text d2)
     = Calendar.compare_months d1 d2.
Proof.
  intros Y1 Y2 M1 M2. split; [reflexivity|].
  unfold Calendar.month_text, Calendar.compare_months.
  rewrite Calendar.compare_append.
  2:{ rewrite !(Calendar.pad_length 4 (Z.to_nat 2263))
        by (try exact Calendar.years_width; lia).
      reflexivity. }
  rewrite (Calendar.pad_compare 4 (Z.to_nat 2263))
    by (try exact Calendar.years_increasing; lia).
  rewrite Z2Nat.inj_compare by lia.
  destruct (year d1 ?= year d2)%Z; try reflexivity.
  change (String.compare (Text.pad 2 (month d1)) (Text.pad 2 (month d2))
          = Nat.compare (month d1) (month d2)).
  apply (Calendar.pad_compare 2 13); [exact Calendar.months_increasing | lia..].
Qed.

Lemma month_keys_in_calendar_order_witness :
  dt_month (Date (mkDate 2023 12 5)) = Str "2023-12"
  /\ String.compare "2023-12" "2024-01" = Lt.
Proof.
  apply (month_keys_in_calendar_order (mkDate 2023 12 5) (mkDate 2024 1 1));
    simpl; lia.
Defined.

(** ** Patients by condition and by blood type *)

(** [sort_values(ascending=False)] on a table of keys and values: the rows in
    an order in which no row stands before one it is strictly below.  pandas
    does not fix the order of rows that compare equal, so the sorted table
    is specified up to that order; an insertion sort shows that one
    exists. *)
Section SortValues.

Variable A : Type.
Variable above : A -> A -> bool.
Hypothesis above_total : forall a b, above a b = false -> above b a = true.
Hypothesis above_trans :
  forall a b c, above a b = true -> above b c = true -> above a c = true.

Definition descending (t : list (string * A)) : Prop :=
  StronglySorted (fun a b => above (snd a) (snd b) = true) t.

Definition sorted_descending (t0 t : list (string * A)) : Prop :=
  Permutation t t0 /\ descending t.

Fixpoint insert_descending (x : string * A) (l : list (string * A))
  : list (string * A) :=
  match l with
  | [] => [x]
  | y :: l' =>
      if above (snd x) (snd y) then x :: l else y :: insert_descending x l'
  end.

Definition sort_descending (l : list (string * A)) : list (string * A) :=
  fold_right insert_descending [] l.

Lemma insert_descending_perm (x : string * A) (l : list (string * A)) :
  Permutation (insert_descending x l) (x :: l).
Proof.
  induction l as [|y l IH]; simpl; [reflexivity|].
  destruct (above (snd x) (snd y)); [reflexivity|].
  rewrite IH. apply perm_swap.
Qed.

Lemma insert_descending_sorted (x : string * A) (l : list (string * A)) :
  descending l -> descending (insert_descending x l).
Proof.
  unfold descending. induction l as [|y l IH]; simpl; intros D.
  - repeat constructor.
  - pose proof (StronglySorted_inv D) as [D' F].
    destruct (above (snd x) (snd y)) eqn:E.
    + constructor; [exact D|]. constructor; [exact E|].
      rewrite Forall_forall in *. intros z Z.
      apply (above_trans _ _ _ E), F, Z.
    + constructor; [apply IH, D'|].
      rewrite Forall_forall in *. intros z Z.
      apply (Permutation_in _ (insert_descending_perm x l)) in Z.
      destruct Z as [<-|Z]; [apply above_total, E | apply F, Z].
Qed.

Lemma sort_descending_spec (l : list (string * A)) :
  sorted_descending l (sort_descending l).
Proof.
  unfold sorted_descending. induction l as [|x l [P D]]; simpl.
  - split; [reflexivity | constructor].
  - split.
    + rewrite insert_descending_perm, P. reflexivity.
    + apply insert_descending_sorted, D.
Qed.

End SortValues.

Arguments descending {A} above t.
Arguments sorted_descending {A} above t0 t.
Arguments sort_descending {A} above l.
Arguments sort_descending_spec {A} above _ _ l.

Module Counts.

(** [Series.value_counts()]: one row for each distinct value with the number
    of rows that hold it, missing values left out, the largest count
    first. *)
Definition value_counts (s : series) (t : list (string * nat)) : Prop :=
  sorted_descending (fun a b => Nat.leb b a) (group_sizes (group_keys s)) t.

Lemma value_counts_exists (s : series) : exists t, value_counts s t.
Proof.
  exists (sort_descending (fun a b => Nat.leb b a)
                          (group_sizes (group_keys s))).
  apply sort_descending_spec.
  - intros a b E. apply Nat.leb_gt in E. apply Nat.leb_le. lia.
  - intros a b c. rewrite !Nat.leb_le. lia.
Qed.

Lemma total_perm (t t' : list (string * nat)) :
  Permutation t t' -> total t = total t'.
Proof. induction 1; simpl in *; lia. Qed.

Lemma ordered_keys (g : list (string * nat)) :
  ordered g -> NoDup (map fst g).
Proof.
  induction 1 as [|e g O IH F]; simpl; constructor; [|exact IH].
  intros I. apply in_map_iff in I. destruct I as (e' & E & I).
  rewrite Forall_forall in F. specialize (F e' I).
  unfold key_lt in F. rewrite E in F. apply ltb_compare in F.
  rewrite string_compare_refl in F. discriminate.
Qed.

Lemma length_group_keys (s : series) :
  Forall is_text s -> List.length (group_keys s) = List.length s.
Proof.
  unfold group_keys. induction 1 as [|v s [t ->] _ IH]; simpl; congruence.
Qed.

End Counts.

Section PatientCounts.

Context {parser : DatetimeParser}.

Lemma rect_clean (df c : frame) : rect df -> clean df = Ok c -> rect c.
Proof.
  intros R C. rewrite clean_eq in C.
  eapply table_rect, table_derived_cols; [|exact C].
  apply table_fill_missing_values.
  apply (rect_drop_duplicates _ (rect_convert df R)).
Qed.

Lemma lookup_text_kept (df : frame) (k : string) :
  In k ("Gender" :: text_cols) ->
  lookup k (fill_missing_values (drop_duplicates (convert df)))
  = option_map (fun s0 => select (map negb (duplicated (convert df)))
                                 (map (cell_of k) s0))
               (lookup k (strip_columns df)).
Proof.
  intros I.
  destruct (lookup k (strip_columns df)) as [s0|] eqn:E.
  - apply (lookup_fill_text k _ _ I).
    + unfold drop_duplicates.
      rewrite lookup_filter_rows, (lookup_convert_text k df I), E.
      reflexivity.
    + apply Forall_select, Forall_forall. intros v V.
      apply in_map_iff in V. destruct V as (u & <- & _). apply cell_of_text.
  - rewrite lookup_fill_missing_values. unfold drop_duplicates.
    rewrite lookup_filter_rows, (lookup_convert_text k df I), E.
    cbn [option_map]. destruct (String.eqb k "Billing Amount");
      [reflexivity|]. destruct (_ || _); reflexivity.
Qed.

Lemma text_column_of_clean (df c : frame) (k : string) (s : series) :
  clean df = Ok c -> In k ("Gender" :: text_cols) ->
  lookup k c = Some s -> Forall is_text s.
Proof.
  intros C I L.
  assert (N : existsb (String.eqb k)
                ["Age Group"; "Admission Year"; "Admission Month";
                 "Month Name"] = false).
  { simpl in I. repeat (destruct I as [<-|I]; [reflexivity|]). destruct I. }
  rewrite (lookup_clean df c k C N), (lookup_text_kept df k I) in L.
  destruct (lookup k (strip_columns df)) as [s0|]; [|discriminate].
  apply Some_inj in L. subst s.
  apply Forall_select, Forall_forall. intros v V.
  apply in_map_iff in V. destruct V as (u & <- & _). apply cell_of_text.
Qed.

(** X12.  The patient counts by Medical Condition and by Blood Type
    (lines 91-94 and 117-120) account for every patient: a table of value
    counts of the cleaned column exists, and in any such table the counts
    add up to the number of rows of the cleaned table (a missing value was
    turned into text by the cleaning and is counted too), no value is listed
    twice, and a value is listed with a count exactly when that many rows,
    at least one, hold it. *)
Theorem patient_counts (df c : frame) (k : string) (s : series) :
  rect df -> clean df = Ok c ->
  In k ["Medical Condition"; "Blood Type"] ->
  lookup k c = Some s ->
  (exists t, Counts.value_counts s t)
  /\ forall t, Counts.value_counts s t ->
       total t = nrows c
       /\ NoDup (map fst t)
       /\ forall key n,
            In (key, n) t
            <-> n = occurrences key (group_keys s) /\ 0 < n.
Proof.
  intros R C I L. split; [apply Counts.value_counts_exists|].
  intros t [P D].
  assert (I' : In k ("Gender" :: text_cols)).
  { simpl in *. tauto. }
  pose proof (text_column_of_clean df c k s C I' L) as F.
  destruct (group_sizes_spec (group_keys s)) as [O G].
  split; [|split].
  - rewrite (Counts.total_perm _ _ P), total_group_sizes.
    rewrite (Counts.length_group_keys s F).
    apply (table_lookup _ c k s (rect_clean df c R C) L).
  - apply (Permutation_NoDup (Permutation_sym (Permutation_map fst P))).
    apply Counts.ordered_keys, O.
  - intros key n. rewrite <- G. split; apply Permutation_in.
    + exact P.
    + apply Permutation_sym, P.
Qed.

End PatientCounts.

Definition conditions : frame :=
  [("Medical Condition", [Str "Flu"; NA; Str " Flu"; Str "Asthma"]);
   ("Date of Admission",
    [Str "2023-01-05"; Str "2023-02-01"; Str "2023-03-01"; NA]);
   ("Billing Amount", [Str "10"; Str "20"; Str "40"; Str "abc"])].

Definition conditions_clean : frame :=
  [("Medical Condition", [Str "Flu"; Str "nan"; Str "Flu"; Str "Asthma"]);
   ("Date of Admission",
    [Date (mkDate 2023 1 5); Date (mkDate 2023 2 1); Date (mkDate 2023 3 1);
     NA]);
   ("Billing Amount", [Num 10; Num 20; Num 40; Num 20]);
   ("Admission Year", [Num 2023; Num 2023; Num 2023; NA]);
   ("Admission Month",
    [Str "2023-01"; Str "2023-02"; Str "2023-03"; Str "NaT"]);
   ("Month Name", [Str "Jan"; Str "Feb"; Str "Mar"; NA])]%Q.

Lemma clean_conditions : @clean iso_dates conditions = Ok conditions_clean.
Proof. vm_compute. reflexivity. Qed.

Lemma patient_counts_witness :
  Counts.value_counts [Str "Flu"; Str "nan"; Str "Flu"; Str "Asthma"]
                      [("Flu", 2); ("nan", 1); ("Asthma", 1)]
  /\ total [("Flu", 2); ("nan", 1); ("Asthma", 1)] = nrows conditions_clean.
Proof.
  assert (V : Counts.value_counts
                [Str "Flu"; Str "nan"; Str "Flu"; Str "Asthma"]
                [("Flu", 2); ("nan", 1); ("Asthma", 1)]).
  { split.
    - change (group_sizes _) with [("Asthma", 1); ("Flu", 2); ("nan", 1)].
      apply Permutation_sym, Permutation_cons_app with (l1 := [_; _]).
      reflexivity.
    - repeat constructor. }
  split; [exact V|].
  assert (R : rect conditions) by (repeat constructor).
  assert (I : In "Medical Condition" ["Medical Condition"; "Blood Type"])
    by (simpl; tauto).
  destruct (@patient_counts iso_dates conditions conditions_clean
              "Medical Condition"
              [Str "Flu"; Str "nan"; Str "Flu"; Str "Asthma"]
              R clean_conditions I eq_refl) as [_ A].
  destruct (A _ V) as [T _]. exact T.
Defined.

(** ** Average billing by condition and by blood type *)

Module Averages.

(** The numbers of the column [b] in the rows whose key is [k]. *)
Definition group_numbers (k : string) (keys b : series) : list Q :=
  numbers (select (map (value_eqb (Str k)) keys) b).

(** [Series.mean()]: missing values are skipped; NaN for no number. *)
Definition mean (xs : list Q) : value :=
  match xs with
  | [] => NA
  | _ => Num (Qsum xs / inject_Z (Z.of_nat (List.length xs)))
  end.

(** [groupby(key)[col].mean()]: one row for each key, in key order. *)
Definition group_means (keys b : series) : list (string * value) :=
  map (fun e => (fst e, mean (group_numbers (fst e) keys b)))
      (group_sizes (group_keys keys)).

(** The order of [sort_values(ascending=False)] on a float column: the
    larger number first, NaN last. *)
Definition above (a b : value) : bool :=
  match a, b with
  | Num x, Num y => Qle_bool y x
  | _, Num _ => false
  | _, _ => true
  end.

(** Lines 105-111 and 122-126 *)
Definition avg_billing (keys b : series) (t : list (string * value)) : Prop :=
  sorted_descending above (group_means keys b) t.

(** What a row of the table stands for in the total: its average times the
    number of rows of its group. *)
Definition weight (keys : series) (e : string * value) : Q :=
  match snd e with
  | Num q => q * inject_Z (Z.of_nat (occurrences (fst e) (group_keys keys)))
  | _ => 0
  end.

Lemma above_total (a b : value) : above a b = false -> above b a = true.
Proof.
  destruct a, b; simpl; try reflexivity; try discriminate.
  intros E. apply Qle_bool_iff. apply Qlt_le_weak, Qnot_le_lt.
  intros L. apply Qle_bool_iff in L. congruence.
Qed.

Lemma above_trans (a b c : value) :
  above a b = true -> above b c = true -> above a c = true.
Proof.
  destruct a, b, c; simpl; try reflexivity; try discriminate.
  rewrite !Qle_bool_iff. intros X Y. apply (Qle_trans _ _ _ Y X).
Qed.

Lemma avg_billing_exists (keys b : series) : exists t, avg_billing keys b t.
Proof.
  exists (sort_descending above (group_means keys b)).
  apply sort_descending_spec; [exact above_total | exact above_trans].
Qed.

Lemma Qsum_app (l l' : list Q) : (Qsum (l ++ l') == Qsum l + Qsum l')%Q.
Proof.
  induction l as [|x l IH]; simpl; [ring|]. rewrite IH. ring.
Qed.

Lemma Qsum_perm (l l' : list Q) :
  Permutation l l' -> (Qsum l == Qsum l')%Q.
Proof.
  induction 1 as [|x l l' _ IH|x y l|l l' l'' _ IH _ IH']; simpl.
  - reflexivity.
  - rewrite IH. reflexivity.
  - ring.
  - rewrite IH. exact IH'.
Qed.

Lemma Qsum_map_ext {A : Type} (f g : A -> Q) (l : list A) :
  (forall x, In x l -> (f x == g x)%Q) ->
  (Qsum (map f l) == Qsum (map g l))%Q.
Proof.
  induction l as [|x l IH]; simpl; intros E; [reflexivity|].
  rewrite (E x), IH by auto. reflexivity.
Qed.

Lemma Qsum_map_plus {A : Type} (f g : A -> Q) (l : list A) :
  (Qsum (map (fun x => f x + g x) l) == Qsum (map f l) + Qsum (map g l))%Q.
Proof.
  induction l as [|x l IH]; simpl; [ring|]. rewrite IH. ring.
Qed.

(** Over keys without repetition, only the key [k0] contributes. *)
Lemma Qsum_single (k0 : string) (x : Q) (ks : list string) :
  NoDup ks ->
  (Qsum (map (fun k => if String.eqb k k0 then x else 0) ks)
   == if existsb (String.eqb k0) ks then x else 0)%Q.
Proof.
  induction 1 as [|k ks N _ IH]; simpl; [reflexivity|].
  rewrite IH. rewrite (String.eqb_sym k0 k).
  destruct (String.eqb k k0) eqn:E; simpl; [|ring].
  apply String.eqb_eq in E. subst k.
  destruct (existsb (String.eqb k0) ks) eqn:X; [|ring].
  exfalso. apply N. apply existsb_exists in X.
  destruct X as (k & I & K). apply String.eqb_eq in K. subst. exact I.
Qed.

Lemma numbers_cons (v : value) (s : series) :
  numbers (v :: s) = numbers [v] ++ numbers s.
Proof. unfold numbers. simpl. rewrite app_nil_r. reflexivity. Qed.

Lemma group_numbers_cons (k k0 : string) (v : value) (keys b : series) :
  group_numbers k (Str k0 :: keys) (v :: b)
  = (if String.eqb k k0 then numbers [v] else []) ++ group_numbers k keys b.
Proof.
  unfold group_numbers, numbers. simpl.
  destruct (String.eqb k k0); simpl; [|reflexivity].
  rewrite app_nil_r. reflexivity.
Qed.

(** The groups split the numbers of the column. *)
Lemma groups_split (ks : list string) (keys b : series) :
  NoDup ks -> Forall is_text keys ->
  List.length keys = List.length b ->
  (forall k, In k (group_keys keys) -> In k ks) ->
  (Qsum (map (fun k => Qsum (group_numbers k keys b)) ks)
   == Qsum (numbers b))%Q.
Proof.
  intros N F. revert b. induction F as [|v keys [k0 ->] F IH];
    intros [|x b] L C; simpl in L; try discriminate.
  - unfold group_numbers. simpl. clear. induction ks; simpl; [reflexivity|].
    rewrite IHks. ring.
  - rewrite (Qsum_map_ext _
               (fun k => (if String.eqb k k0 then Qsum (numbers [x]) else 0)
                         + Qsum (group_numbers k keys b))%Q).
    2:{ intros k _. rewrite group_numbers_cons, Qsum_app.
        destruct (String.eqb k k0); reflexivity. }
    rewrite Qsum_map_plus, (Qsum_single k0 _ ks N), IH.
    + assert (X : existsb (String.eqb k0) ks = true).
      { apply existsb_exists. exists k0. split; [|apply String.eqb_refl].
        apply C. simpl. auto. }
      rewrite X, (numbers_cons x b), Qsum_app. reflexivity.
    + lia.
    + intros k K. apply C. simpl. auto.
Qed.

Lemma length_group_numbers (k : string) (keys b : series) :
  Forall is_text keys -> Forall is_number b ->
  List.length keys = List.length b ->
  List.length (group_numbers k keys b) = occurrences k (group_keys keys).
Proof.
  intros F. revert b. induction F as [|v keys [k0 ->] F IH];
    intros [|x b] N L; simpl in L; try discriminate; [reflexivity|].
  inversion N as [|? ? [q ->] N']; subst.
  rewrite group_numbers_cons, length_app, (IH b N') by lia.
  unfold occurrences. simpl. rewrite (String.eqb_sym k k0).
  destruct (String.eqb k0 k); reflexivity.
Qed.

Lemma weight_mean (k : string) (keys b : series) :
  Forall is_text keys -> Forall is_number b ->
  List.length keys = List.length b ->
  (weight keys (k, mean (group_numbers k keys b))
   == Qsum (group_numbers k keys b))%Q.
Proof.
  intros F N L. unfold weight. cbn [fst snd].
  rewrite <- (length_group_numbers k keys b F N L).
  unfold mean. destruct (group_numbers k keys b) as [|x xs];
    [reflexivity|].
  field. intros Z. simpl List.length in Z.
  unfold inject_Z, Qeq in Z. simpl in Z. lia.
Qed.

Lemma keys_listed (keys : list string) (k : string) :
  In k keys -> In k (map fst (group_sizes keys)).
Proof.
  intros I. destruct (group_sizes_spec keys) as [_ G].
  apply in_map_iff. exists (k, occurrences k keys). split; [reflexivity|].
  apply G. split; [reflexivity|]. unfold occurrences.
  apply in_split in I. destruct I as (l1 & l2 & ->).
  rewrite filter_app, length_app. simpl. rewrite String.eqb_refl. simpl. lia.
Qed.

Lemma weights_total (keys b : series) (t : list (string * value)) :
  Forall is_text keys -> Forall is_number b ->
  List.length keys = List.length b ->
  avg_billing keys b t ->
  (Qsum (map (weight keys) t) == Qsum (numbers b))%Q.
Proof.
  intros F N L [P _].
  rewrite (Qsum_perm _ _ (Permutation_map (weight keys) P)).
  unfold group_means. rewrite map_map.
  rewrite (Qsum_map_ext _
             (fun e => Qsum (group_numbers (fst e) keys b)))
    by (intros e _; apply weight_mean; assumption).
  rewrite <- (map_map fst (fun k => Qsum (group_numbers k keys b))).
  apply groups_split; try assumption.
  - apply Counts.ordered_keys, group_sizes_spec.
  - apply keys_listed.
Qed.

Lemma means_numbers (keys b : series) (t : list (string * value)) :
  Forall is_text keys -> Forall is_number b ->
  List.length keys = List.length b ->
  avg_billing keys b t ->
  forall k v, In (k, v) t -> is_number v.
Proof.
  intros F N L [P _] k v I.
  apply (Permutation_in _ P) in I. unfold group_means in I.
  apply in_map_iff in I. destruct I as ([k' n] & E & I).
  cbn [fst] in E. injection E as -> <-.
  apply group_sizes_spec in I. destruct I as [-> I].
  rewrite <- (length_group_numbers k keys b F N L) in I.
  unfold mean. destruct (group_numbers k keys b); [simpl in I; lia|].
  eexists. reflexivity.
Qed.

End Averages.

Lemma billing_column_numbers `{DatetimeParser} (df c : frame) (s0 : series) :
  rect df ->
  clean df = Ok c ->
  lookup "Billing Amount" (strip_columns df) = Some s0 ->
  (exists v, In v s0 /\ parse_billing v <> NA) ->
  exists b, lookup "Billing Amount" c = Some b /\ Forall is_number b.
Proof.
  intros R C E (v & I & P).
  exists (fillna (median (billing_before_fill df s0))
                 (billing_before_fill df s0)).
  split; [exact (lookup_billing_clean df c s0 C E)|].
  destruct (billing_before_fill_number df s0 v R E I P) as [q Q].
  destruct (median_num _ q Q) as [m M]. rewrite M. unfold fillna.
  apply Forall_forall. intros x X. apply in_map_iff in X.
  destruct X as (u & <- & U).
  destruct (billing_before_fill_kind df s0 u U) as [->|[q' ->]]; simpl;
    unfold is_number; eauto.
Qed.


